(** * RPython debug tracebacks: the circular buffer of [debug_traceback.h]

    A shallow embedding of
    [rpython/translator/c/src/debug_traceback.h] and the properties of its
    ring store, its entry encoding and its (empty) recorder entry points.

    The header only declares the printer [pypy_debug_traceback_print]; the
    decoder and the renderer are therefore modelled from the written
    specification and marked as such. *)

From Stdlib Require Import ZArith Lia.
From stdpp Require Import base list strings gmap pretty.

Local Open Scope Z_scope.

(** ** Pointers

    A pointer is the integer value of its address, [0 <= p < 2 ^ ptr_bits].
    The width of a pointer is a property of the target, not of the header,
    so it stays a variable. *)

Definition ptr := Z.

Definition NULL : ptr := 0.

Section Pointers.
Variable ptr_bits : Z.

(** [(T * ) n]: conversion of an integer to a pointer, wrapping. *)
Definition int_to_ptr (n : Z) : ptr := n mod 2 ^ ptr_bits.

(** [#define PYPYDTPOS_RERAISE ((struct pypydtpos_s * ) -1)] *)
Definition PYPYDTPOS_RERAISE : ptr := int_to_ptr (-1).

Definition ptr_bytes : Z := ptr_bits / 8.

(** An object of [size] bytes stored at [p]: it does not start at the null
    address and it ends inside the address space. *)
Definition valid_object (size : Z) (p : ptr) : Prop :=
  0 < p /\ p + size <= 2 ^ ptr_bits.

(** [struct pypydtpos_s { const char *filename; const char *funcname;
    int lineno; }]: the last field, a 4-byte [int], starts after the two
    pointers (padding can only move the end further). *)
Definition pypydtpos_s_min_size : Z := 2 * ptr_bytes + 4.

(** A legitimate location: the address of a [struct pypydtpos_s]. *)
Definition valid_location (p : ptr) : Prop :=
  valid_object pypydtpos_s_min_size p.

(** A legitimate exception type: the address of some object, of one byte at
    least. *)
Definition valid_exctype (p : ptr) : Prop := valid_object 1 p.
End Pointers.

(** ** The structures of the header *)

Record pypydtpos_s := {
  filename : string;
  funcname : string;
  lineno : Z
}.

Record pypydtentry_s := {
  location : ptr;   (* struct pypydtpos_s *location *)
  exctype : ptr     (* void *exctype *)
}.

#[global] Instance pypydtentry_s_eq_dec : EqDecision pypydtentry_s.
Proof. solve_decision. Defined.

(** ** The depth of the buffer

    [#ifdef RPY_LL_ASSERT] selects 8192, otherwise 128; the header says of
    both that they are "a power of two". *)

Definition PYPY_DEBUG_TRACEBACK_DEPTH (RPY_LL_ASSERT : bool) : Z :=
  if RPY_LL_ASSERT then 8192 else 128.

Definition is_power_of_two (n : Z) : bool :=
  (0 <? n) && (n =? 2 ^ Z.log2 n).

(** ** The store: [pypydtcount] and [pypy_debug_tracebacks] *)

Record dtstate := {
  pypy_debug_tracebacks : list pypydtentry_s;   (* the array of DEPTH slots *)
  pypydtcount : Z                               (* int pypydtcount *)
}.

(** Objects of static storage duration start zeroed. *)
Definition zero_entry : pypydtentry_s := {| location := NULL; exctype := NULL |}.

Definition set_location (loc : ptr) (e : pypydtentry_s) : pypydtentry_s :=
  {| location := loc; exctype := exctype e |}.

Definition set_exctype (etype : ptr) (e : pypydtentry_s) : pypydtentry_s :=
  {| location := location e; exctype := etype |}.

Section Store.
Variable depth : Z.   (* the value of PYPY_DEBUG_TRACEBACK_DEPTH *)

Definition static_store : dtstate :=
  {| pypy_debug_tracebacks := replicate (Z.to_nat depth) zero_entry;
     pypydtcount := 0 |}.

(** The array has [depth] slots and the cursor indexes one of them. *)
Definition store_wf (s : dtstate) : Prop :=
  length (pypy_debug_tracebacks s) = Z.to_nat depth /\
  0 <= pypydtcount s < depth.

(** [PYPYDTSTORE(loc, etype)]: the three statements of the macro, in order.
    Indexing outside the array is undefined behaviour: [None].  Inside it the
    cursor is below the depth, so [pypydtcount + 1] is far from the end of
    [int] and the sum is the mathematical one. *)
Definition PYPYDTSTORE (loc etype : ptr) (s : dtstate) : option dtstate :=
  let i := pypydtcount s in
  if bool_decide (0 <= i < Z.of_nat (length (pypy_debug_tracebacks s))) then
    let t1 := alter (set_location loc) (Z.to_nat i) (pypy_debug_tracebacks s) in
    let t2 := alter (set_exctype etype) (Z.to_nat i) t1 in
    Some {| pypy_debug_tracebacks := t2;
            pypydtcount := Z.land (i + 1) (depth - 1) |}
  else None.

(** A run of stores, stopping at the first undefined one. *)
Fixpoint store_all (es : list pypydtentry_s) (s : dtstate) : option dtstate :=
  match es with
  | [] => Some s
  | e :: es' =>
      match PYPYDTSTORE (location e) (exctype e) s with
      | Some s' => store_all es' s'
      | None => None
      end
  end.

(** Reading backward from the cursor: [i = (i - 1) & (depth - 1)], [n]
    times, collecting the slots met. *)
Fixpoint scan_back (t : list pypydtentry_s) (i : Z) (n : nat)
  : list pypydtentry_s :=
  match n with
  | O => []
  | S n' =>
      let i' := Z.land (i - 1) (depth - 1) in
      match t !! Z.to_nat i' with
      | Some e => e :: scan_back t i' n'
      | None => []
      end
  end.
End Store.

(** ** What a build can ask for

    The two [#define]s of lines 24-28 are not under an [#ifndef]: a value a
    build gives to [PYPY_DEBUG_TRACEBACK_DEPTH] before the header is read is
    redefined by the header (compilers diagnose the redefinition and go on
    with the header's value).  The only input the depth has is whether
    [RPY_LL_ASSERT] is defined. *)



(** ** The entry points of the header

    Each of the five macros is defined with an empty replacement list, so a
    use of it expands to nothing.  The program state they could touch is the
    store and the diagnostic stream. *)

Record world := {
  w_store : dtstate;
  w_stderr : list string
}.

Definition OP_DEBUG_START_TRACEBACK (etype : ptr) (_unused : Z) (w : world) : world := w.
Definition OP_DEBUG_RERAISE_TRACEBACK (etp : ptr) (_unused : Z) (w : world) : world := w.
Definition OP_DEBUG_PRINT_TRACEBACK (w : world) : world := w.
Definition PYPY_DEBUG_RECORD_TRACEBACK (funcname : string) (w : world) : world := w.
Definition PYPY_DEBUG_CATCH_EXCEPTION (funcname : string) (etype : ptr) (is_fatal : bool)
  (w : world) : world := w.

Inductive entry_point :=
  | StartTraceback (etype : ptr) (unused : Z)
  | ReraiseTraceback (etp : ptr) (unused : Z)
  | PrintTraceback
  | RecordTraceback (funcname : string)
  | CatchException (funcname : string) (etype : ptr) (is_fatal : bool).

Definition invoke (c : entry_point) (w : world) : world :=
  match c with
  | StartTraceback etype u => OP_DEBUG_START_TRACEBACK etype u w
  | ReraiseTraceback etp u => OP_DEBUG_RERAISE_TRACEBACK etp u w
  | PrintTraceback => OP_DEBUG_PRINT_TRACEBACK w
  | RecordTraceback f => PYPY_DEBUG_RECORD_TRACEBACK f w
  | CatchException f etype fatal => PYPY_DEBUG_CATCH_EXCEPTION f etype fatal w
  end.

Definition invoke_all (cs : list entry_point) (w : world) : world :=
  foldl (fun w c => invoke c w) w cs.

(** ** Entries and the rows of the header's table

    The header's table reads a slot by its [location]: [NULL] says that
    [exctype] was raised, [PYPYDTPOS_RERAISE] says that [exctype] is raised
    again, any other value is a place the exception went through. *)

(** Modelled from the spec: the tagged entry of its data model, which the
    header does not declare; the header has the two-pointer row only. *)
Inductive Entry :=
  | Frame (loc : ptr)
  | Origin (tok : ptr)
  | Reraise (tok : ptr).

#[global] Instance Entry_eq_dec : EqDecision Entry.
Proof. solve_decision. Defined.

Section Entries.
Variable ptr_bits : Z.

(** The row of the table that stands for an entry. *)
Definition encode (e : Entry) : pypydtentry_s :=
  match e with
  | Frame loc => {| location := loc; exctype := NULL |}
  | Origin tok => {| location := NULL; exctype := tok |}
  | Reraise tok => {| location := PYPYDTPOS_RERAISE ptr_bits; exctype := tok |}
  end.

(** The reading of a row, by its [location] as in the table. *)
Definition interpret (s : pypydtentry_s) : Entry :=
  if bool_decide (location s = PYPYDTPOS_RERAISE ptr_bits) then Reraise (exctype s)
  else if bool_decide (location s = NULL) then Origin (exctype s)
  else Frame (location s).

(** What a recorder may be asked to record: a frame at the address of a
    location structure, an exception that is a real object. *)
Definition legit (e : Entry) : Prop :=
  match e with
  | Frame loc => valid_location ptr_bits loc
  | Origin tok => valid_exctype ptr_bits tok
  | Reraise tok => valid_exctype ptr_bits tok
  end.

(** The fourth row of the table, [f:17  &KeyError]: a place and an
    exception at once. *)
Definition frame_with_exception (s : pypydtentry_s) : Prop :=
  valid_location ptr_bits (location s) /\ exctype s <> NULL.

(** The example buffer of the header's comment, top to bottom, for the
    places [h:5], [g:12], [f:17], [entry:25] and the exception [&KeyError]. *)
Definition header_example (h5 g12 f17 entry25 KeyError : ptr)
  : list pypydtentry_s :=
  [ {| location := NULL; exctype := KeyError |};
    {| location := h5; exctype := NULL |};
    {| location := g12; exctype := NULL |};
    {| location := f17; exctype := KeyError |};
    {| location := PYPYDTPOS_RERAISE ptr_bits; exctype := KeyError |};
    {| location := entry25; exctype := NULL |} ].
End Entries.

(** ** The ring and the recorder of the specification *)

(** Modelled from the spec: the ring store with its total-writes-ever
    counter.  The header keeps the slots and the masked cursor
    [pypydtcount] only, and they are the [ring_store] here. *)
Record ring := {
  ring_store : dtstate;
  total_writes : nat
}.

Section Recorder.
Variables (ptr_bits depth : Z).

(** Modelled from the spec: the ring at startup, all slots empty, the cursor
    at 0, nothing written. *)
Definition fresh_ring : ring :=
  {| ring_store := static_store depth; total_writes := 0 |}.

(** Modelled from the spec: an append, which the header does with
    [PYPYDTSTORE]; the count of writes is the specification's. *)
Definition append (loc etype : ptr) (r : ring) : option ring :=
  match PYPYDTSTORE depth loc etype (ring_store r) with
  | Some s' => Some {| ring_store := s'; total_writes := S (total_writes r) |}
  | None => None
  end.

(** Modelled from the spec: [record_frame], [record_origin] and
    [record_reraise], absent from the header under these names; each is one
    [PYPYDTSTORE] of the row the header's table has for its kind. *)
Definition record_frame (loc : ptr) : ring -> option ring :=
  append loc NULL.

Definition record_origin (tok : ptr) : ring -> option ring :=
  append NULL tok.

Definition record_reraise (tok : ptr) : ring -> option ring :=
  append (PYPYDTPOS_RERAISE ptr_bits) tok.

Definition record (e : Entry) : ring -> option ring :=
  match e with
  | Frame loc => record_frame loc
  | Origin tok => record_origin tok
  | Reraise tok => record_reraise tok
  end.

Fixpoint record_all (es : list Entry) (r : ring) : option ring :=
  match es with
  | [] => Some r
  | e :: es' =>
      match record e r with
      | Some r' => record_all es' r'
      | None => None
      end
  end.
End Recorder.

(** ** The decoder of the specification

    The header declares [pypy_debug_traceback_print] and does not define it.
    What follows is the decoder as the specification words it. *)

(** Modelled from the spec: the logical segments [decode] returns.  A segment
    is the path of one exception, nearest entry first; when a continuation is
    linked to its origin the two are one segment, with the [Reraise] on the
    path where the exception was raised again. *)
Inductive seg_label :=
  | Originated (tok : ptr)      (* closed by [Origin tok] *)
  | OriginUnknown (tok : ptr)   (* continuation of [tok], origin not found *)
  | Unlabelled.                 (* frames with no exception entry met *)

Record segment := {
  seg_label_of : seg_label;
  seg_path : list Entry   (* nearest first *)
}.

Inductive mode :=
  | Plain
  | Continuation (tok : ptr).

(** Modelled from the spec: the end of the scan.  A continuation still open
    is reported with its origin unknown. *)
Definition at_end (m : mode) (cur : list Entry) : list segment :=
  match m with
  | Continuation tok => [ {| seg_label_of := OriginUnknown tok; seg_path := cur |} ]
  | Plain =>
      match cur with
      | [] => []
      | _ :: _ => [ {| seg_label_of := Unlabelled; seg_path := cur |} ]
      end
  end.

(** Modelled from the spec: the segment builder of [decode], over the scanned
    entries, newest first.  A [Frame] is attached to the current segment; an
    [Origin] closes the current segment and labels it with its token; a
    [Reraise] opens a continuation, to which all older entries are attributed
    until an [Origin] of the same token closes it or the scan ends. *)
Fixpoint build (m : mode) (cur : list Entry) (l : list Entry) : list segment :=
  match l with
  | [] => at_end m cur
  | e :: l' =>
      match m, e with
      | Plain, Frame _ => build Plain (cur ++ [e]) l'
      | Plain, Origin tok =>
          {| seg_label_of := Originated tok; seg_path := cur |} :: build Plain [] l'
      | Plain, Reraise tok => build (Continuation tok) (cur ++ [e]) l'
      | Continuation tok, Origin tok' =>
          if bool_decide (tok' = tok)
          then {| seg_label_of := Originated tok; seg_path := cur |} :: build Plain [] l'
          else build m (cur ++ [e]) l'
      | Continuation _, _ => build m (cur ++ [e]) l'
      end
  end.


Definition segments (l : list Entry) : list segment := build Plain [] l.

(** The frame and segment elements of a decoded trace, nearest first: the
    entries of each path, then the origin that closed it. *)
Definition seg_elements (s : segment) : list Entry :=
  seg_path s ++
  match seg_label_of s with
  | Originated tok => [Origin tok]
  | _ => []
  end.

Definition elements (ss : list segment) : list Entry :=
  concat (seg_elements <$> ss).

Section Decoder.
Variables (ptr_bits depth : Z).

(** Modelled from the spec: the slots [decode] scans, backward from the slot
    before the cursor, [min total_writes capacity] of them. *)
Definition window (r : ring) : list pypydtentry_s :=
  scan_back depth
    (pypy_debug_tracebacks (ring_store r))
    (pypydtcount (ring_store r))
    (Nat.min (total_writes r) (Z.to_nat depth)).

(** Modelled from the spec: [decode], the body of the declared
    [pypy_debug_traceback_print], which the header does not have. *)
Definition decode (r : ring) : list segment :=
  segments (interpret ptr_bits <$> window r).

(** An auxiliary scan, found neither in the header nor in the specification:
    the rows behind the cursor, at most [depth] of them, up to the first
    zeroed one.  It serves to show that, after recorder calls on the fresh
    ring, the window the counter delimits is determined by the header's
    store alone. *)
Fixpoint until_unused (l : list pypydtentry_s) : list pypydtentry_s :=
  match l with
  | [] => []
  | s :: l' => if bool_decide (s = zero_entry) then [] else s :: until_unused l'
  end.

Definition window_of_store (s : dtstate) : list pypydtentry_s :=
  until_unused
    (scan_back depth (pypy_debug_tracebacks s) (pypydtcount s) (Z.to_nat depth)).
End Decoder.

(** ** The renderer of the specification *)

(** Modelled from the spec: the lines of [render], one per frame as
    [routine:line], one per segment boundary with the display name of the
    exception, re-raise boundaries told apart from fresh origins. *)
Inductive line :=
  | FrameLine (text : string)
  | OriginLine (name : string)
  | ReraiseLine (name : string)
  | UnknownOriginLine (name : string).

Section Render.
Variable static_mem : gmap Z pypydtpos_s.
Variable display_name : ptr -> string.

(** Modelled from the spec: [render], which the header does not have.  The
    location structures live in static memory, the names come from
    outside. *)
Definition render_entry (e : Entry) : line :=
  match e with
  | Frame loc =>
      match static_mem !! loc with
      | Some p => FrameLine (funcname p +:+ ":" +:+ pretty (lineno p))
      | None => FrameLine "?"
      end
  | Origin tok => OriginLine (display_name tok)
  | Reraise tok => ReraiseLine (display_name tok)
  end.

Definition render_segment (s : segment) : list line :=
  (render_entry <$> seg_path s) ++
  match seg_label_of s with
  | Originated tok => [OriginLine (display_name tok)]
  | OriginUnknown tok => [UnknownOriginLine (display_name tok)]
  | Unlabelled => []
  end.

Definition render (ss : list segment) : list line :=
  concat (render_segment <$> ss).
End Render.

Definition is_frame_line (l : line) : bool :=
  match l with FrameLine _ => true | _ => false end.

Definition frame_lines (ls : list line) : list line := filter is_frame_line ls.


(** * Facts *)

(** Closes [valid_object], [valid_location] and [valid_exctype] at concrete
    addresses. *)
Ltac concrete_pointer := vm_compute; split; [reflexivity | discriminate].

(** ** Masking with a power of two *)

Lemma power_of_two_pos depth : is_power_of_two depth = true -> 0 < depth.
Proof.
  unfold is_power_of_two. intros H.
  apply andb_true_iff in H as [H _]. by apply Z.ltb_lt in H.
Qed.

Lemma mask_is_mod depth x :
  is_power_of_two depth = true -> Z.land x (depth - 1) = x mod depth.
Proof.
  unfold is_power_of_two. intros H.
  apply andb_true_iff in H as [_ H]. apply Z.eqb_eq in H.
  rewrite H at 1 2.
  replace (2 ^ Z.log2 depth - 1) with (Z.ones (Z.log2 depth))
    by (rewrite Z.ones_equiv; lia).
  apply Z.land_ones, Z.log2_nonneg.
Qed.

Lemma depth_is_power_of_two b :
  is_power_of_two (PYPY_DEBUG_TRACEBACK_DEPTH b) = true.
Proof. by destruct b. Qed.

Lemma step_back_ne depth c j :
  0 < depth -> 0 <= c < depth -> 0 < j < depth -> (c - j) mod depth <> c.
Proof.
  intros Hd Hc Hj Heq.
  pose proof (Z.div_mod (c - j) depth ltac:(lia)) as Hdm.
  rewrite Heq in Hdm.
  assert (Hq : depth * ((c - j) / depth) = - j) by lia.
  destruct (Z_lt_le_dec ((c - j) / depth) 0); nia.
Qed.

(** ** One store *)

Section StoreFacts.
Variable depth : Z.
Hypothesis depth_pow2 : is_power_of_two depth = true.

Lemma alter_both (t : list pypydtentry_s) i loc etype :
  alter (set_exctype etype) i (alter (set_location loc) i t)
  = <[i := {| location := loc; exctype := etype |}]> t.
Proof.
  rewrite list_alter_alter_eq, list_insert_alter.
  by apply list_alter_ext.
Qed.

Lemma PYPYDTSTORE_eq loc etype s :
  store_wf depth s ->
  PYPYDTSTORE depth loc etype s =
    Some {| pypy_debug_tracebacks :=
              <[Z.to_nat (pypydtcount s) := {| location := loc; exctype := etype |}]>
                (pypy_debug_tracebacks s);
            pypydtcount := (pypydtcount s + 1) mod depth |}.
Proof.
  intros [Hlen Hc]. unfold PYPYDTSTORE.
  rewrite bool_decide_eq_true_2 by lia.
  by rewrite alter_both, mask_is_mod.
Qed.

Lemma PYPYDTSTORE_wf loc etype s s' :
  store_wf depth s -> PYPYDTSTORE depth loc etype s = Some s' -> store_wf depth s'.
Proof.
  intros Hwf. rewrite PYPYDTSTORE_eq by done. intros [= <-].
  destruct Hwf as [Hlen Hc]. split; simpl.
  - by rewrite length_insert.
  - apply Z.mod_pos_bound. lia.
Qed.

Lemma static_store_wf : store_wf depth (static_store depth).
Proof.
  pose proof (power_of_two_pos _ depth_pow2).
  split; simpl; [by rewrite length_replicate | lia].
Qed.

End StoreFacts.

(** ** Runs of stores and the backward scan *)

Section RingFacts.
Variable depth : Z.
Hypothesis depth_pow2 : is_power_of_two depth = true.

Lemma store_all_app es1 es2 s :
  store_all depth (es1 ++ es2) s =
    match store_all depth es1 s with
    | Some s' => store_all depth es2 s'
    | None => None
    end.
Proof.
  revert s. induction es1 as [|e es1 IH]; intros s; simpl; [done|].
  destruct (PYPYDTSTORE depth (location e) (exctype e) s); [apply IH | done].
Qed.

(** On a well-formed store every run of stores is defined, and leaves a
    well-formed store whose cursor has advanced by the length of the run. *)
Lemma store_all_defined es s :
  store_wf depth s ->
  exists s', store_all depth es s = Some s' /\ store_wf depth s' /\
    pypydtcount s' = (pypydtcount s + Z.of_nat (length es)) mod depth.
Proof.
  pose proof (power_of_two_pos _ depth_pow2) as Hpos.
  revert s. induction es as [|e es IH]; intros s Hwf; simpl.
  - exists s. repeat split; try apply Hwf.
    rewrite Z.add_0_r, Z.mod_small; [done | apply Hwf].
  - destruct (PYPYDTSTORE depth (location e) (exctype e) s) as [s1|] eqn:E.
    + pose proof (PYPYDTSTORE_wf _ depth_pow2 _ _ _ _ Hwf E) as Hwf1.
      destruct (IH s1 Hwf1) as (s' & -> & Hwf' & Hc).
      exists s'. repeat split; try apply Hwf'.
      rewrite Hc. rewrite PYPYDTSTORE_eq in E by done.
      injection E as <-. simpl.
      rewrite Zplus_mod_idemp_l. f_equal. lia.
    + rewrite PYPYDTSTORE_eq in E by done. discriminate.
Qed.

(** The scan never reads the slot it starts from unless it goes all the way
    round. *)
Lemma scan_back_insert_other t c e i n :
  (forall j, 1 <= j <= Z.of_nat n -> (i - j) mod depth <> c) ->
  0 <= c ->
  scan_back depth (<[Z.to_nat c := e]> t) i n = scan_back depth t i n.
Proof.
  pose proof (power_of_two_pos _ depth_pow2) as Hpos.
  revert i. induction n as [|n IH]; intros i Hne Hc; simpl; [done|].
  rewrite mask_is_mod by done.
  assert (Hi : (i - 1) mod depth <> c) by (apply Hne; lia).
  pose proof (Z.mod_pos_bound (i - 1) depth Hpos) as Hb.
  rewrite list_lookup_insert_ne by lia.
  destruct (t !! Z.to_nat ((i - 1) mod depth)); [|done].
  f_equal. apply IH; [|done].
  intros j Hj. rewrite Zminus_mod_idemp_l.
  replace (i - 1 - j) with (i - (j + 1)) by lia. apply Hne. lia.
Qed.

Lemma scan_back_insert_cursor t c e n :
  0 <= c < depth -> Z.of_nat n < depth ->
  scan_back depth (<[Z.to_nat c := e]> t) c n = scan_back depth t c n.
Proof.
  intros Hc Hn. apply scan_back_insert_other; [|lia].
  intros j Hj. apply step_back_ne; lia.
Qed.

(** After a run of stores the [n] slots behind the cursor hold the last [n]
    stored rows, newest first, for every [n] up to the length of the run and
    the depth of the buffer. *)
Lemma scan_back_store_all es : forall s s' n,
  store_wf depth s ->
  store_all depth es s = Some s' ->
  (n <= length es)%nat -> Z.of_nat n <= depth ->
  scan_back depth (pypy_debug_tracebacks s') (pypydtcount s') n = take n (reverse es).
Proof.
  pose proof (power_of_two_pos _ depth_pow2) as Hpos.
  induction es as [|e es IH] using rev_ind; intros s s' n Hwf Hrun Hn Hd.
  - simpl in Hn. by replace n with 0%nat by lia.
  - rewrite store_all_app in Hrun.
    destruct (store_all_defined es s Hwf) as (s1 & E1 & Hwf1 & Hc1).
    rewrite E1 in Hrun. simpl in Hrun.
    destruct (PYPYDTSTORE depth (location e) (exctype e) s1) as [s2|] eqn:E2;
      [|done].
    injection Hrun as ->.
    rewrite PYPYDTSTORE_eq in E2 by done. injection E2 as <-. simpl.
    rewrite reverse_snoc. destruct n as [|n]; [done|]. simpl.
    rewrite mask_is_mod by done.
    destruct Hwf1 as [Hlen1 Hb1].
    rewrite Zminus_mod_idemp_l.
    replace (pypydtcount s1 + 1 - 1) with (pypydtcount s1) by lia.
    rewrite Z.mod_small by done.
    rewrite list_lookup_insert_eq by lia.
    destruct e as [loc etype]. simpl. f_equal.
    rewrite scan_back_insert_cursor by lia.
    rewrite length_app in Hn. simpl in Hn.
    apply (IH s); [done | done | lia | lia].
Qed.

(** The [j]-th slot the scan reads is [j + 1] places behind its start. *)
Lemma scan_back_lookup t : forall n i j,
  length t = Z.to_nat depth -> (j < n)%nat ->
  scan_back depth t i n !! j = t !! Z.to_nat ((i - 1 - Z.of_nat j) mod depth).
Proof.
  pose proof (power_of_two_pos _ depth_pow2) as Hpos.
  induction n as [|n IH]; intros i j Hlen Hj; [lia|]. simpl.
  rewrite mask_is_mod by done.
  pose proof (Z.mod_pos_bound (i - 1) depth Hpos) as Hb.
  destruct (lookup_lt_is_Some_2 t (Z.to_nat ((i - 1) mod depth))) as [x Hx];
    [lia|].
  rewrite Hx. destruct j as [|j]; simpl.
  - by rewrite Z.sub_0_r.
  - rewrite IH by (done || lia). do 2 f_equal.
    replace ((i - 1) mod depth - 1 - Z.of_nat j)
      with ((i - 1) mod depth - (1 + Z.of_nat j)) by lia.
    rewrite Zminus_mod_idemp_l. f_equal. lia.
Qed.

Lemma scan_back_length t : forall n i,
  length t = Z.to_nat depth -> length (scan_back depth t i n) = n.
Proof.
  pose proof (power_of_two_pos _ depth_pow2) as Hpos.
  induction n as [|n IH]; intros i Hlen; [done|]. simpl.
  rewrite mask_is_mod by done.
  pose proof (Z.mod_pos_bound (i - 1) depth Hpos) as Hb.
  destruct (lookup_lt_is_Some_2 t (Z.to_nat ((i - 1) mod depth))) as [x Hx];
    [lia|].
  rewrite Hx. simpl. by rewrite IH.
Qed.

(** Once the run is as long as the buffer, the cursor is on the oldest of the
    rows still held. *)
Lemma store_all_oldest es s s' :
  store_wf depth s ->
  store_all depth es s = Some s' ->
  (Z.to_nat depth <= length es)%nat ->
  pypy_debug_tracebacks s' !! Z.to_nat (pypydtcount s')
  = es !! (length es - Z.to_nat depth)%nat.
Proof.
  pose proof (power_of_two_pos _ depth_pow2) as Hpos.
  intros Hwf Hrun Hlen.
  destruct (store_all_defined es s Hwf) as (s1 & E1 & [Hl1 Hc1] & _).
  rewrite Hrun in E1. injection E1 as <-.
  pose proof (scan_back_store_all es s s' (Z.to_nat depth) Hwf Hrun Hlen
                ltac:(lia)) as Hscan.
  apply (f_equal (fun l => l !! (Z.to_nat depth - 1)%nat)) in Hscan.
  rewrite scan_back_lookup in Hscan by (done || lia).
  rewrite lookup_take_lt in Hscan by lia.
  rewrite reverse_lookup in Hscan by lia.
  replace (length es - S (Z.to_nat depth - 1))%nat
    with (length es - Z.to_nat depth)%nat in Hscan by lia.
  rewrite <- Hscan. do 2 f_equal.
  replace (pypydtcount s' - 1 - Z.of_nat (Z.to_nat depth - 1))
    with (pypydtcount s' + (-1) * depth) by lia.
  rewrite Z.mod_add by lia. by rewrite Z.mod_small.
Qed.

End RingFacts.

(** ** The recorder operations are stores *)

Lemma record_is_PYPYDTSTORE ptr_bits depth e r :
  record ptr_bits depth e r =
    (fun s' => {| ring_store := s'; total_writes := S (total_writes r) |}) <$>
    PYPYDTSTORE depth (location (encode ptr_bits e)) (exctype (encode ptr_bits e))
      (ring_store r).
Proof.
  destruct e; simpl; unfold record_frame, record_origin, record_reraise, append;
    by destruct (PYPYDTSTORE _ _ _ _).
Qed.

(** * The cursor and the append *)

(** C5.  On a store of either depth every append, whatever row it writes and
    so for each of [record_frame], [record_origin] and [record_reraise], is
    defined: it writes its row in the slot under the cursor, touches no other
    slot, keeps the number of slots, and moves the cursor to the next slot
    modulo the depth, inside [0, depth).  Over any run of appends the cursor
    advances by the length of the run modulo the depth and, once the run is
    as long as the buffer, rests on the oldest row still held. *)
Theorem append_at_cursor_and_advance (RPY_LL_ASSERT : bool) (s : dtstate) :
  let depth := PYPY_DEBUG_TRACEBACK_DEPTH RPY_LL_ASSERT in
  store_wf depth s ->
  (forall loc etype, exists s',
      PYPYDTSTORE depth loc etype s = Some s' /\
      pypy_debug_tracebacks s' !! Z.to_nat (pypydtcount s)
        = Some {| location := loc; exctype := etype |} /\
      (forall j, j <> Z.to_nat (pypydtcount s) ->
         pypy_debug_tracebacks s' !! j = pypy_debug_tracebacks s !! j) /\
      length (pypy_debug_tracebacks s') = length (pypy_debug_tracebacks s) /\
      pypydtcount s' = (pypydtcount s + 1) mod depth /\
      0 <= pypydtcount s' < depth) /\
  (forall ptr_bits e tw,
      record ptr_bits depth e {| ring_store := s; total_writes := tw |} =
        (fun s' => {| ring_store := s'; total_writes := S tw |}) <$>
        PYPYDTSTORE depth (location (encode ptr_bits e))
          (exctype (encode ptr_bits e)) s) /\
  (forall es, exists s',
      store_all depth es s = Some s' /\
      store_wf depth s' /\
      pypydtcount s' = (pypydtcount s + Z.of_nat (length es)) mod depth /\
      ((Z.to_nat depth <= length es)%nat ->
         pypy_debug_tracebacks s' !! Z.to_nat (pypydtcount s')
           = es !! (length es - Z.to_nat depth)%nat)).
Proof.
  intros depth Hwf.
  pose proof (depth_is_power_of_two RPY_LL_ASSERT) as Hpow. fold depth in Hpow.
  pose proof (power_of_two_pos _ Hpow) as Hpos.
  split; [|split].
  - intros loc etype.
    eexists. split; [by apply PYPYDTSTORE_eq|]. simpl.
    destruct Hwf as [Hlen Hc].
    split; [apply list_lookup_insert_eq; lia|].
    split; [intros j Hj; by apply list_lookup_insert_ne|].
    split; [apply length_insert|].
    split; [done|]. apply Z.mod_pos_bound. lia.
  - intros ptr_bits e tw. apply record_is_PYPYDTSTORE.
  - intros es.
    destruct (store_all_defined depth Hpow es s Hwf) as (s' & Hrun & Hwf' & Hc).
    exists s'. repeat split; try done; try apply Hwf'.
    intros Hlen. by apply (store_all_oldest depth Hpow es s).
Qed.

Lemma append_at_cursor_and_advance_witness :
  store_wf 128 (static_store 128) /\
  exists s', PYPYDTSTORE 128 4096 0 (static_store 128) = Some s' /\
             pypydtcount s' = 1.
Proof.
  assert (Hwf : store_wf 128 (static_store 128)).
  { split; [reflexivity | simpl; lia]. }
  split; [exact Hwf|].
  destruct (append_at_cursor_and_advance false (static_store 128) Hwf)
    as [Hstep _].
  destruct (Hstep 4096 0) as (s' & Hs & _ & _ & _ & Hc & _).
  exists s'. split; [exact Hs|]. rewrite Hc. reflexivity.
Defined.

(** * The entry points *)

Lemma invoke_id c w : invoke c w = w.
Proof. by destruct c. Qed.

(** C10.  As this header defines them, the five entry points expand to
    nothing: whatever their arguments, one use or any sequence of uses leaves
    the slots of the buffer, the cursor and the diagnostic stream as they
    were. *)
Theorem entry_points_are_no_ops (w : world) :
  (forall etype u, OP_DEBUG_START_TRACEBACK etype u w = w) /\
  (forall etp u, OP_DEBUG_RERAISE_TRACEBACK etp u w = w) /\
  OP_DEBUG_PRINT_TRACEBACK w = w /\
  (forall funcname, PYPY_DEBUG_RECORD_TRACEBACK funcname w = w) /\
  (forall funcname etype is_fatal,
      PYPY_DEBUG_CATCH_EXCEPTION funcname etype is_fatal w = w) /\
  (forall cs,
      pypy_debug_tracebacks (w_store (invoke_all cs w))
        = pypy_debug_tracebacks (w_store w) /\
      pypydtcount (w_store (invoke_all cs w)) = pypydtcount (w_store w) /\
      w_stderr (invoke_all cs w) = w_stderr w).
Proof.
  repeat split; try done.
  all: induction cs as [|c cs IH] using rev_ind; [done|].
  all: unfold invoke_all in *; by rewrite foldl_app; simpl; rewrite invoke_id.
Qed.

(** * The depth is a constant of the build *)



(** * The rows of the table *)

Section PointerFacts.
Variable ptr_bits : Z.
Hypothesis ptr_bits_pos : 0 < ptr_bits.

Lemma address_space_size : 2 <= 2 ^ ptr_bits.
Proof.
  change 2 with (2 ^ 1) at 1. apply Z.pow_le_mono_r; lia.
Qed.

Lemma reraise_is_all_ones : PYPYDTPOS_RERAISE ptr_bits = 2 ^ ptr_bits - 1.
Proof.
  pose proof address_space_size as H2.
  unfold PYPYDTPOS_RERAISE, int_to_ptr. symmetry.
  apply (Z.mod_unique _ _ (-1)); lia.
Qed.

Lemma reraise_not_null : PYPYDTPOS_RERAISE ptr_bits <> NULL.
Proof.
  pose proof address_space_size. rewrite reraise_is_all_ones. unfold NULL. lia.
Qed.

Lemma valid_object_distinct size p :
  2 <= size -> valid_object ptr_bits size p ->
  p <> NULL /\ p <> PYPYDTPOS_RERAISE ptr_bits.
Proof.
  intros Hsize [Hp Hend]. rewrite reraise_is_all_ones. unfold NULL. lia.
Qed.

Lemma valid_location_distinct p :
  valid_location ptr_bits p -> p <> NULL /\ p <> PYPYDTPOS_RERAISE ptr_bits.
Proof.
  apply valid_object_distinct. unfold pypydtpos_s_min_size, ptr_bytes.
  pose proof (Z.div_pos ptr_bits 8). lia.
Qed.

Lemma valid_exctype_not_null t : valid_exctype ptr_bits t -> t <> NULL.
Proof. intros [Hp _]. unfold NULL. lia. Qed.

Lemma interpret_encode e :
  legit ptr_bits e -> interpret ptr_bits (encode ptr_bits e) = e.
Proof.
  pose proof reraise_not_null as Hr.
  destruct e as [loc|tok|tok]; intros Hl; unfold interpret, encode;
    cbn [location exctype].
  - destruct (valid_location_distinct _ Hl) as [Hn Hs].
    by rewrite !bool_decide_eq_false_2.
  - rewrite bool_decide_eq_false_2 by done.
    by rewrite bool_decide_eq_true_2.
  - by rewrite bool_decide_eq_true_2.
Qed.

Lemma encode_not_zero e :
  legit ptr_bits e -> encode ptr_bits e <> zero_entry.
Proof.
  pose proof reraise_not_null as Hr.
  destruct e as [loc|tok|tok]; simpl; intros He; unfold zero_entry.
  - destruct (valid_location_distinct loc He). congruence.
  - pose proof (valid_exctype_not_null tok He). congruence.
  - congruence.
Qed.

Lemma interpret_encode_list es :
  Forall (legit ptr_bits) es ->
  interpret ptr_bits <$> (encode ptr_bits <$> es) = es.
Proof.
  induction 1 as [|e es He _ IH]; [done|].
  rewrite !fmap_cons. by rewrite interpret_encode, IH.
Qed.

End PointerFacts.

(** C8.  The kind of a recorded entry is read back from its two fields: the
    re-raise sentinel is neither the null pointer nor the address of any
    location structure, an exception type is never the null pointer, the row
    of an [Origin] is never the row of a [Reraise] whatever the tokens, and so
    the row of a legitimate [Frame], [Origin] or [Reraise] is read back as
    that very entry, is never the zeroed row of an unused slot, differs from
    the row of every other legitimate entry, and carries the sentinel only
    when it is a [Reraise]. *)
Theorem entry_kind_is_recoverable (ptr_bits : Z) (Hbits : 0 < ptr_bits) :
  PYPYDTPOS_RERAISE ptr_bits <> NULL /\
  (forall p, valid_location ptr_bits p ->
     p <> PYPYDTPOS_RERAISE ptr_bits /\ p <> NULL) /\
  (forall t, valid_exctype ptr_bits t -> t <> NULL) /\
  (forall tok tok', encode ptr_bits (Origin tok) <> encode ptr_bits (Reraise tok')) /\
  (forall e, legit ptr_bits e ->
     interpret ptr_bits (encode ptr_bits e) = e /\
     encode ptr_bits e <> zero_entry) /\
  (forall e1 e2, legit ptr_bits e1 -> legit ptr_bits e2 ->
     encode ptr_bits e1 = encode ptr_bits e2 -> e1 = e2) /\
  (forall e, legit ptr_bits e ->
     location (encode ptr_bits e) = PYPYDTPOS_RERAISE ptr_bits <->
     exists tok, e = Reraise tok).
Proof.
  pose proof (reraise_not_null ptr_bits Hbits) as Hr.
  split; [done|].
  split; [intros p Hp; by destruct (valid_location_distinct ptr_bits Hbits p Hp)|].
  split; [apply valid_exctype_not_null|].
  split; [intros tok tok'; simpl; congruence|].
  split; [|split].
  - intros e He. split; [by apply interpret_encode | by apply encode_not_zero].
  - intros e1 e2 H1 H2 Heq.
    rewrite <- (interpret_encode ptr_bits Hbits e1 H1).
    rewrite <- (interpret_encode ptr_bits Hbits e2 H2).
    by rewrite Heq.
  - intros e He. destruct e as [loc|tok|tok]; simpl in *.
    + destruct (valid_location_distinct ptr_bits Hbits loc He).
      split; [done | by intros [? ?]].
    + split; [intros Heq; by rewrite <- Heq in Hr | by intros [? ?]].
    + split; [by eexists | done].
Qed.

Lemma entry_kind_is_recoverable_witness :
  0 < 64 /\
  interpret 64 (encode 64 (Reraise 8192)) = Reraise 8192 /\
  interpret 64 (encode 64 (Frame 4096)) = Frame 4096.
Proof.
  assert (Hbits : 0 < 64) by lia.
  split; [exact Hbits|].
  destruct (entry_kind_is_recoverable 64 Hbits) as (_ & _ & _ & _ & Hback & _).
  split; apply Hback; concrete_pointer.
Defined.

(** C9.  A row with a real location and a non-null exception type at once,
    the [f:17  &KeyError] row of the header's example, is the row of no
    [Frame], [Origin] or [Reraise]; read by its location alone it is a frame
    and its exception is lost.  The store takes it like any other row, and
    storing the header's example leaves it in slot 3. *)
Theorem fourth_row_shape (ptr_bits : Z) (RPY_LL_ASSERT : bool) (loc tok : ptr)
  (Hbits : 0 < ptr_bits)
  (Hloc : valid_location ptr_bits loc) (Htok : tok <> NULL) :
  let depth := PYPY_DEBUG_TRACEBACK_DEPTH RPY_LL_ASSERT in
  let row := {| location := loc; exctype := tok |} in
  frame_with_exception ptr_bits row /\
  (forall e, encode ptr_bits e <> row) /\
  interpret ptr_bits row = Frame loc /\
  encode ptr_bits (interpret ptr_bits row) <> row /\
  (forall s, store_wf depth s -> exists s',
      PYPYDTSTORE depth loc tok s = Some s' /\
      pypy_debug_tracebacks s' !! Z.to_nat (pypydtcount s) = Some row) /\
  (forall h5 g12 entry25, exists s',
      store_all depth (header_example ptr_bits h5 g12 loc entry25 tok)
        (static_store depth) = Some s' /\
      pypy_debug_tracebacks s' !! 3%nat = Some row).
Proof.
  intros depth row.
  destruct (valid_location_distinct ptr_bits Hbits loc Hloc) as [Hn Hs].
  assert (Hno : forall e, encode ptr_bits e <> row).
  { intros [l|t|t]; unfold row; simpl; congruence. }
  assert (Hint : interpret ptr_bits row = Frame loc).
  { unfold interpret, row; cbn [location exctype].
    by rewrite !bool_decide_eq_false_2. }
  split; [done|]. split; [done|]. split; [done|].
  split; [apply Hno|].
  pose proof (depth_is_power_of_two RPY_LL_ASSERT) as Hpow. fold depth in Hpow.
  split.
  - intros s Hwf. eexists. split; [by apply PYPYDTSTORE_eq|]. simpl.
    destruct Hwf as [Hlen Hc]. apply list_lookup_insert_eq. lia.
  - intros h5 g12 entry25. unfold depth.
    destruct RPY_LL_ASSERT; eexists; (split; [reflexivity|]); reflexivity.
Qed.

Lemma fourth_row_shape_witness :
  0 < 64 /\ valid_location 64 4096 /\ (8192 : ptr) <> NULL /\
  interpret 64 {| location := 4096; exctype := 8192 |} = Frame 4096.
Proof.
  assert (Hbits : 0 < 64) by lia.
  assert (Hloc : valid_location 64 4096) by concrete_pointer.
  assert (Htok : (8192 : ptr) <> NULL) by discriminate.
  split; [exact Hbits|]. split; [exact Hloc|]. split; [exact Htok|].
  exact (proj1 (proj2 (proj2 (fourth_row_shape 64 false 4096 8192 Hbits Hloc Htok)))).
Defined.

(** * The decoder *)

(** ** Segments keep every entry *)

Lemma elements_cons s ss : elements (s :: ss) = seg_elements s ++ elements ss.
Proof. done. Qed.

Lemma elements_at_end m cur : elements (at_end m cur) = cur.
Proof.
  destruct m as [|tok]; [destruct cur|]; unfold elements, seg_elements; simpl;
    by rewrite ?app_nil_r.
Qed.

(** The decoded segments, flattened, are the scanned entries in scan order,
    behind those already collected: nothing is dropped, added or moved. *)
Lemma elements_build l : forall m cur, elements (build m cur l) = cur ++ l.
Proof.
  induction l as [|e l IH]; intros m cur; simpl.
  - by rewrite elements_at_end, app_nil_r.
  - destruct m as [|tok], e as [loc|tok'|tok']; simpl.
    + by rewrite IH, <- app_assoc.
    + rewrite elements_cons, IH. unfold seg_elements. simpl.
      by rewrite <- app_assoc.
    + by rewrite IH, <- app_assoc.
    + by rewrite IH, <- app_assoc.
    + case_bool_decide as Htok.
      * subst tok'. rewrite elements_cons, IH. unfold seg_elements. simpl.
        by rewrite <- app_assoc.
      * by rewrite IH, <- app_assoc.
    + by rewrite IH, <- app_assoc.
Qed.

Lemma elements_segments l : elements (segments l) = l.
Proof. apply elements_build. Qed.

(** ** A continuation whose origin is not met *)



(** ** What the window holds after a run of recorder calls *)

Section DecoderFacts.
Variables (ptr_bits depth : Z).
Hypothesis ptr_bits_pos : 0 < ptr_bits.
Hypothesis depth_pow2 : is_power_of_two depth = true.

Lemma record_all_store_all es : forall r,
  record_all ptr_bits depth es r =
    (fun s' => {| ring_store := s';
                  total_writes := (total_writes r + length es)%nat |}) <$>
    store_all depth (encode ptr_bits <$> es) (ring_store r).
Proof.
  induction es as [|e es IH]; intros [s tw]; simpl.
  - by rewrite Nat.add_0_r.
  - rewrite record_is_PYPYDTSTORE. simpl.
    destruct (PYPYDTSTORE depth _ _ s) as [s1|]; simpl; [|done].
    rewrite IH. simpl. destruct (store_all depth _ s1); simpl; [|done].
    do 2 f_equal. lia.
Qed.

Lemma decode_after_records es :
  Forall (legit ptr_bits) es ->
  exists r,
    record_all ptr_bits depth es (fresh_ring depth) = Some r /\
    total_writes r = length es /\
    store_wf depth (ring_store r) /\
    interpret ptr_bits <$> window depth r = take (Z.to_nat depth) (reverse es) /\
    decode ptr_bits depth r = segments (take (Z.to_nat depth) (reverse es)).
Proof.
  intros Hlegit.
  pose proof (power_of_two_pos _ depth_pow2) as Hpos.
  pose proof (static_store_wf depth depth_pow2) as Hwf0.
  destruct (store_all_defined depth depth_pow2 (encode ptr_bits <$> es)
              (static_store depth) Hwf0) as (s' & Hrun & Hwf' & _).
  exists {| ring_store := s'; total_writes := length es |}.
  assert (Hwin : interpret ptr_bits <$>
                   window depth {| ring_store := s'; total_writes := length es |}
                 = take (Z.to_nat depth) (reverse es)).
  { unfold window. simpl.
    rewrite (scan_back_store_all depth depth_pow2 (encode ptr_bits <$> es)
               (static_store depth) s') by (done || rewrite ?length_fmap; lia).
    rewrite fmap_take, fmap_reverse, interpret_encode_list by done.
    destruct (Nat.min_spec (length es) (Z.to_nat depth)) as [[Hlt ->]|[Hle ->]];
      [|done].
    by rewrite !take_ge by (rewrite length_reverse; lia). }
  split; [|split; [done|split; [done|split; [done|]]]].
  - rewrite record_all_store_all. simpl. by rewrite Hrun.
  - unfold decode. by rewrite Hwin.
Qed.

End DecoderFacts.

(** ** The scan without the counter

    The header's store has no count of the writes.  A scan bounded by the
    depth alone, on the zeroed store, reads [depth] zeroed rows, each of them
    read by its location as the origin of the null exception. *)

Lemma scan_back_zeroed depth n : forall i,
  is_power_of_two depth = true -> (n <= Z.to_nat depth)%nat ->
  scan_back depth (replicate (Z.to_nat depth) zero_entry) i n
  = replicate n zero_entry.
Proof.
  intros i Hpow. pose proof (power_of_two_pos _ Hpow) as Hpos.
  revert i. induction n as [|n IH]; intros i Hn; [done|]. simpl.
  rewrite mask_is_mod by done.
  pose proof (Z.mod_pos_bound (i - 1) depth Hpos) as Hb.
  rewrite lookup_replicate_2 by lia.
  by rewrite IH by lia.
Qed.

Lemma scan_without_counter_reads_zeroed_slots ptr_bits RPY_LL_ASSERT :
  0 < ptr_bits ->
  let depth := PYPY_DEBUG_TRACEBACK_DEPTH RPY_LL_ASSERT in
  interpret ptr_bits <$>
    scan_back depth (pypy_debug_tracebacks (static_store depth))
      (pypydtcount (static_store depth)) (Z.to_nat depth)
  = replicate (Z.to_nat depth) (Origin NULL).
Proof.
  intros Hbits depth. simpl.
  rewrite scan_back_zeroed by (done || apply depth_is_power_of_two).
  rewrite fmap_replicate. f_equal.
  unfold interpret, zero_entry; cbn [location exctype].
  rewrite bool_decide_eq_false_2
    by (intros Heq; by apply (reraise_not_null ptr_bits Hbits)).
  by rewrite bool_decide_eq_true_2.
Qed.

(** ** The counter can be read off the store

    After recorder calls on the fresh ring the window that the counter
    delimits is the run of rows, behind the cursor, up to the first zeroed
    one: the decoded trace depends on the header's store alone. *)

Section WindowOfStore.
Variables (ptr_bits depth : Z).
Hypothesis ptr_bits_pos : 0 < ptr_bits.
Hypothesis depth_pow2 : is_power_of_two depth = true.

Lemma scan_back_app t n : forall m i,
  length t = Z.to_nat depth ->
  scan_back depth t i (m + n)
  = scan_back depth t i m ++ scan_back depth t ((i - Z.of_nat m) mod depth) n.
Proof.
  pose proof (power_of_two_pos _ depth_pow2) as Hpos.
  induction m as [|m IH]; intros i Hlen.
  - simpl. rewrite Z.sub_0_r.
    destruct n as [|n]; [done|]. simpl.
    rewrite !mask_is_mod by done.
    by rewrite Zminus_mod_idemp_l.
  - simpl. rewrite mask_is_mod by done.
    pose proof (Z.mod_pos_bound (i - 1) depth Hpos) as Hb.
    destruct (lookup_lt_is_Some_2 t (Z.to_nat ((i - 1) mod depth))) as [x ->];
      [lia|].
    rewrite IH by done. simpl. do 3 f_equal.
    rewrite Zminus_mod_idemp_l. f_equal. lia.
Qed.

Lemma scan_back_all_zero t m : forall i,
  (forall k, 1 <= k <= Z.of_nat m ->
     t !! Z.to_nat ((i - k) mod depth) = Some zero_entry) ->
  scan_back depth t i m = replicate m zero_entry.
Proof.
  induction m as [|m IH]; intros i Hz; [done|]. simpl.
  rewrite mask_is_mod by done.
  rewrite (Hz 1) by lia. f_equal. apply IH.
  intros k Hk. rewrite Zminus_mod_idemp_l.
  replace (i - 1 - k) with (i - (k + 1)) by lia. apply Hz. lia.
Qed.

(** Slots ahead of a run that does not reach them keep their row. *)
Lemma store_all_untouched es : forall s s' (j : nat),
  store_wf depth s ->
  store_all depth es s = Some s' ->
  pypydtcount s + Z.of_nat (length es) <= Z.of_nat j ->
  pypy_debug_tracebacks s' !! j = pypy_debug_tracebacks s !! j.
Proof.
  pose proof (power_of_two_pos _ depth_pow2) as Hpos.
  induction es as [|e es IH]; intros s s' j Hwf Hrun Hj; simpl in *.
  - by injection Hrun as <-.
  - destruct (PYPYDTSTORE depth (location e) (exctype e) s) as [s1|] eqn:E;
      [|done].
    pose proof (PYPYDTSTORE_wf _ depth_pow2 _ _ _ _ Hwf E) as Hwf1.
    rewrite PYPYDTSTORE_eq in E by done. injection E as <-.
    destruct Hwf as [Hlen Hc].
    destruct (decide (Z.of_nat j < depth)) as [Hjd|Hjd].
    + rewrite (IH _ s' j Hwf1 Hrun); simpl.
      * apply list_lookup_insert_ne. lia.
      * rewrite Z.mod_small by lia. lia.
    + rewrite !lookup_ge_None_2; [done | lia |].
      destruct (store_all_defined depth depth_pow2 es _ Hwf1)
        as (s2 & E2 & [Hlen2 _] & _).
      rewrite Hrun in E2. injection E2 as <-. lia.
Qed.

Lemma until_unused_app_zero l l' :
  Forall (fun s => s <> zero_entry) l ->
  until_unused (l ++ zero_entry :: l') = l.
Proof.
  induction 1 as [|s l Hs _ IH]; simpl; [done|].
  rewrite bool_decide_eq_false_2 by done. by rewrite IH.
Qed.

Lemma until_unused_all l :
  Forall (fun s => s <> zero_entry) l -> until_unused l = l.
Proof.
  induction 1 as [|s l Hs _ IH]; simpl; [done|].
  rewrite bool_decide_eq_false_2 by done. by rewrite IH.
Qed.

Lemma legit_rows_used es :
  Forall (legit ptr_bits) es ->
  Forall (fun s => s <> zero_entry) (encode ptr_bits <$> es).
Proof.
  intros H. apply Forall_fmap. eapply Forall_impl; [exact H|].
  intros e He. by apply encode_not_zero.
Qed.

Lemma window_of_store_after_records es r :
  Forall (legit ptr_bits) es ->
  record_all ptr_bits depth es (fresh_ring depth) = Some r ->
  window_of_store depth (ring_store r) = window depth r.
Proof.
  intros Hlegit Hrec.
  pose proof (power_of_two_pos _ depth_pow2) as Hpos.
  pose proof (static_store_wf depth depth_pow2) as Hwf0.
  pose proof (legit_rows_used es Hlegit) as Hused.
  set (rows := encode ptr_bits <$> es) in *.
  assert (Hrows : length rows = length es) by apply length_fmap.
  rewrite record_all_store_all in Hrec. fold rows in Hrec. simpl in Hrec.
  destruct (store_all_defined depth depth_pow2 rows _ Hwf0)
    as (s' & Hrun & Hwf' & Hc).
  rewrite Hrun in Hrec. simpl in Hrec. injection Hrec as <-.
  unfold window_of_store, window. simpl.
  destruct Hwf' as [Hlen' Hb'].
  destruct (decide (Z.to_nat depth <= length es)%nat) as [Hfull|Hpart].
  - rewrite Nat.min_r by done.
    rewrite (scan_back_store_all depth depth_pow2 rows (static_store depth) s')
      by (done || lia).
    apply until_unused_all, Forall_take, Forall_reverse. done.
  - rewrite Nat.min_l by lia.
    replace (Z.to_nat depth)
      with (length es + (Z.to_nat depth - length es))%nat at 1 by lia.
    rewrite scan_back_app by done.
    rewrite (scan_back_store_all depth depth_pow2 rows (static_store depth) s')
      by (done || lia).
    rewrite take_ge by (rewrite length_reverse; lia).
    assert (Hstart : (pypydtcount s' - Z.of_nat (length es)) mod depth = 0).
    { rewrite Hc. simpl. rewrite Zminus_mod_idemp_l, Hrows.
      replace (0 + Z.of_nat (length es) - Z.of_nat (length es)) with 0 by lia.
      by apply Z.mod_0_l, Z.neq_sym, Z.lt_neq. }
    rewrite Hstart.
    rewrite scan_back_all_zero.
    + destruct (Z.to_nat depth - length es)%nat as [|m] eqn:Hm; [lia|].
      simpl. apply until_unused_app_zero, Forall_reverse. done.
    + intros k Hk.
      replace (0 - k) with (depth - k + (-1) * depth) by lia.
      rewrite Z.mod_add, Z.mod_small by lia.
      rewrite (store_all_untouched rows (static_store depth) s') by (done || simpl; lia).
      simpl. apply lookup_replicate_2. lia.
Qed.

End WindowOfStore.

(** ** The decoded trace *)

(** C1.  After [N] recorder calls on a fresh ring, [N] at most the depth,
    the recording is defined and the decoder returns exactly the [N]
    recorded entries, newest first: its frame and segment elements are the
    recorded sequence reversed, none missing, none added.  The trace is the
    one read off the header's store alone, up to the first zeroed slot. *)
Theorem decode_within_capacity (ptr_bits : Z) (RPY_LL_ASSERT : bool)
  (es : list Entry)
  (Hbits : 0 < ptr_bits)
  (Hlegit : Forall (legit ptr_bits) es)
  (Hlen : (length es <= Z.to_nat (PYPY_DEBUG_TRACEBACK_DEPTH RPY_LL_ASSERT))%nat) :
  let depth := PYPY_DEBUG_TRACEBACK_DEPTH RPY_LL_ASSERT in
  exists r,
    record_all ptr_bits depth es (fresh_ring depth) = Some r /\
    elements (decode ptr_bits depth r) = reverse es /\
    length (elements (decode ptr_bits depth r)) = length es /\
    decode ptr_bits depth r
    = segments (interpret ptr_bits <$> window_of_store depth (ring_store r)).
Proof.
  intros depth.
  pose proof (depth_is_power_of_two RPY_LL_ASSERT) as Hpow. fold depth in Hpow.
  destruct (decode_after_records ptr_bits depth Hbits Hpow es Hlegit)
    as (r & Hrec & _ & _ & _ & Hdec).
  exists r. split; [done|].
  rewrite (window_of_store_after_records ptr_bits depth Hbits Hpow es r)
    by done.
  split; [|split; [|done]]; rewrite Hdec, elements_segments;
    rewrite take_ge by (rewrite length_reverse; done);
    [done | by rewrite length_reverse].
Qed.

Lemma decode_within_capacity_witness :
  let es := [Frame 4096; Origin 8192; Frame 4120; Reraise 8192] in
  0 < 64 /\ Forall (legit 64) es /\ (length es <= Z.to_nat 128)%nat /\
  exists r, record_all 64 128 es (fresh_ring 128) = Some r /\
            elements (decode 64 128 r) = reverse es.
Proof.
  intros es.
  assert (Hbits : 0 < 64) by lia.
  assert (Hlegit : Forall (legit 64) es).
  { repeat (apply List.Forall_cons; [concrete_pointer|]). apply List.Forall_nil. }
  assert (Hlen : (length es <= Z.to_nat (PYPY_DEBUG_TRACEBACK_DEPTH false))%nat).
  { vm_compute. lia. }
  split; [exact Hbits|]. split; [exact Hlegit|]. split; [exact Hlen|].
  destruct (decode_within_capacity 64 false es Hbits Hlegit Hlen)
    as (r & Hrec & Hel & _ & _).
  exists r. split; [exact Hrec | exact Hel].
Defined.

(** C2.  After [M] recorder calls on a fresh ring, [M] above the depth, the
    decoder returns the most recent [depth] entries and nothing else: its
    elements are the last [depth] recorded entries reversed, there are
    exactly [depth] of them, and an entry recorded only before them (the
    first one, after [depth + 1] calls) is not among them.  The trace is the
    one read off the header's store alone. *)
Theorem decode_after_wraparound (ptr_bits : Z) (RPY_LL_ASSERT : bool)
  (es : list Entry)
  (Hbits : 0 < ptr_bits)
  (Hlegit : Forall (legit ptr_bits) es)
  (Hlen : (Z.to_nat (PYPY_DEBUG_TRACEBACK_DEPTH RPY_LL_ASSERT) < length es)%nat) :
  let depth := PYPY_DEBUG_TRACEBACK_DEPTH RPY_LL_ASSERT in
  let recent := drop (length es - Z.to_nat depth) es in
  exists r,
    record_all ptr_bits depth es (fresh_ring depth) = Some r /\
    elements (decode ptr_bits depth r) = reverse recent /\
    length (elements (decode ptr_bits depth r)) = Z.to_nat depth /\
    (forall e, e ∉ recent -> e ∉ elements (decode ptr_bits depth r)) /\
    decode ptr_bits depth r
    = segments (interpret ptr_bits <$> window_of_store depth (ring_store r)).
Proof.
  intros depth recent.
  pose proof (depth_is_power_of_two RPY_LL_ASSERT) as Hpow. fold depth in Hpow.
  destruct (decode_after_records ptr_bits depth Hbits Hpow es Hlegit)
    as (r & Hrec & _ & _ & _ & Hdec).
  exists r. split; [done|].
  rewrite (window_of_store_after_records ptr_bits depth Hbits Hpow es r)
    by done.
  split; [|split; [|split; [|done]]];
    rewrite Hdec, elements_segments, take_reverse; fold recent.
  - done.
  - unfold recent. rewrite length_reverse, length_drop. fold depth in Hlen. lia.
  - intros e He. by rewrite elem_of_reverse.
Qed.

Lemma decode_after_wraparound_witness :
  let es := Origin 8192 :: replicate 128 (Frame 4096) in
  0 < 64 /\ Forall (legit 64) es /\ (Z.to_nat 128 < length es)%nat /\
  exists r, record_all 64 128 es (fresh_ring 128) = Some r /\
            length (elements (decode 64 128 r)) = 128%nat /\
            Origin 8192 ∉ elements (decode 64 128 r).
Proof.
  intros es.
  assert (Hbits : 0 < 64) by lia.
  assert (Hlegit : Forall (legit 64) es).
  { constructor; [concrete_pointer|]. apply Forall_replicate. concrete_pointer. }
  assert (Hlen : (Z.to_nat (PYPY_DEBUG_TRACEBACK_DEPTH false) < length es)%nat).
  { vm_compute. lia. }
  split; [exact Hbits|]. split; [exact Hlegit|]. split; [exact Hlen|].
  destruct (decode_after_wraparound 64 false es Hbits Hlegit Hlen)
    as (r & Hrec & _ & Hn & Hout & _).
  exists r. split; [exact Hrec|]. split; [exact Hn|].
  apply Hout. change (Origin 8192 ∉ replicate 128 (Frame 4096)).
  intros Hin. apply elem_of_replicate in Hin as [Hin _]. discriminate.
Defined.

(** C7.  On the fresh ring, all slots zeroed and the cursor at 0, the decoder
    returns no segment, with the counter or reading the header's store up to
    the first zeroed slot, and the rendering has no line at all, so no frame
    line; both are total functions and there is no error to report. *)
Theorem decode_fresh_is_empty (ptr_bits : Z) (RPY_LL_ASSERT : bool)
  (static_mem : gmap Z pypydtpos_s) (display_name : ptr -> string) :
  let depth := PYPY_DEBUG_TRACEBACK_DEPTH RPY_LL_ASSERT in
  pypydtcount (ring_store (fresh_ring depth)) = 0 /\
  Forall (fun s => s = zero_entry)
    (pypy_debug_tracebacks (ring_store (fresh_ring depth))) /\
  decode ptr_bits depth (fresh_ring depth) = [] /\
  window_of_store depth (ring_store (fresh_ring depth)) = [] /\
  render static_mem display_name (decode ptr_bits depth (fresh_ring depth)) = [] /\
  frame_lines
    (render static_mem display_name (decode ptr_bits depth (fresh_ring depth)))
  = [].
Proof.
  intros depth.
  pose proof (depth_is_power_of_two RPY_LL_ASSERT) as Hpow. fold depth in Hpow.
  assert (Hdec : decode ptr_bits depth (fresh_ring depth) = []) by done.
  split; [done|]. split; [simpl; by apply Forall_replicate|].
  split; [done|]. split; [|by rewrite Hdec].
  by rewrite (window_of_store_after_records 64 depth ltac:(lia) Hpow []).
Qed.




(** * Further properties of the store *)

(** ** Where the rows of a run end up *)

Section SlotFacts.
Variable depth : Z.
Hypothesis depth_pow2 : is_power_of_two depth = true.

(** The [k]-th row of a run is in slot [(cursor + k) mod depth] as long as
    fewer than [depth] rows were stored after it. *)
Lemma store_all_slot es s s' (k : nat) e :
  store_wf depth s ->
  store_all depth es s = Some s' ->
  es !! k = Some e ->
  Z.of_nat (length es) - Z.of_nat k <= depth ->
  pypy_debug_tracebacks s' !! Z.to_nat ((pypydtcount s + Z.of_nat k) mod depth)
  = Some e.
Proof.
  pose proof (power_of_two_pos _ depth_pow2) as Hpos.
  intros Hwf Hrun Hk Hrecent.
  pose proof (lookup_lt_Some _ _ _ Hk) as Hlt.
  destruct (store_all_defined depth depth_pow2 es s Hwf)
    as (s1 & E1 & [Hlen1 Hb1] & Hc1).
  rewrite Hrun in E1. injection E1 as <-.
  set (j := (length es - 1 - k)%nat).
  pose proof (scan_back_store_all depth depth_pow2 es s s' (S j) Hwf Hrun
                ltac:(lia) ltac:(lia)) as Hscan.
  apply (f_equal (fun l => l !! j)) in Hscan.
  rewrite scan_back_lookup in Hscan by (done || lia).
  rewrite lookup_take_lt, reverse_lookup in Hscan by lia.
  replace (length es - S j)%nat with k in Hscan by lia.
  rewrite Hk in Hscan. rewrite <- Hscan. do 2 f_equal.
  replace (pypydtcount s' - 1 - Z.of_nat j)
    with (pypydtcount s' - (1 + Z.of_nat j)) by lia.
  rewrite Hc1, Zminus_mod_idemp_l. f_equal. lia.
Qed.

(** A slot that no row of the run lands on keeps its row. *)
Lemma store_all_off_run es : forall s s' (j : nat),
  store_wf depth s ->
  store_all depth es s = Some s' ->
  (forall k : nat, (k < length es)%nat ->
     (pypydtcount s + Z.of_nat k) mod depth <> Z.of_nat j) ->
  pypy_debug_tracebacks s' !! j = pypy_debug_tracebacks s !! j.
Proof.
  pose proof (power_of_two_pos _ depth_pow2) as Hpos.
  induction es as [|e es IH]; intros s s' j Hwf Hrun Hoff; simpl in *.
  - by injection Hrun as <-.
  - destruct (PYPYDTSTORE depth (location e) (exctype e) s) as [s1|] eqn:E;
      [|done].
    pose proof (PYPYDTSTORE_wf _ depth_pow2 _ _ _ _ Hwf E) as Hwf1.
    rewrite PYPYDTSTORE_eq in E by done. injection E as <-.
    destruct Hwf as [Hlen Hc].
    rewrite (IH _ s' j Hwf1 Hrun); simpl.
    + apply list_lookup_insert_ne.
      specialize (Hoff 0%nat ltac:(lia)).
      rewrite Z.add_0_r, Z.mod_small in Hoff by done. lia.
    + intros k Hk. rewrite Zplus_mod_idemp_l.
      replace (pypydtcount s + 1 + Z.of_nat k)
        with (pypydtcount s + Z.of_nat (S k)) by lia.
      apply Hoff. lia.
Qed.

Lemma store_all_length es s s' :
  store_wf depth s -> store_all depth es s = Some s' ->
  length (pypy_debug_tracebacks s') = Z.to_nat depth /\
  pypydtcount s' = (pypydtcount s + Z.of_nat (length es)) mod depth.
Proof.
  intros Hwf Hrun.
  destruct (store_all_defined depth depth_pow2 es s Hwf)
    as (s1 & E1 & [Hlen1 _] & Hc1).
  rewrite Hrun in E1. by injection E1 as <-.
Qed.

End SlotFacts.

(** X1.  A stored row is kept for a lap: after any run of [PYPYDTSTORE] on a
    well-formed store, the [k]-th row of the run is in slot
    [(cursor + k) mod depth] whenever fewer than [depth] rows were stored
    after it. *)
Theorem row_kept_for_a_lap (RPY_LL_ASSERT : bool)
  (es : list pypydtentry_s) (s s' : dtstate) (k : nat) (e : pypydtentry_s)
  (Hwf : store_wf (PYPY_DEBUG_TRACEBACK_DEPTH RPY_LL_ASSERT) s)
  (Hrun : store_all (PYPY_DEBUG_TRACEBACK_DEPTH RPY_LL_ASSERT) es s = Some s')
  (Hk : es !! k = Some e)
  (Hrecent : Z.of_nat (length es) - Z.of_nat k
             <= PYPY_DEBUG_TRACEBACK_DEPTH RPY_LL_ASSERT) :
  pypy_debug_tracebacks s'
    !! Z.to_nat ((pypydtcount s + Z.of_nat k)
                 mod PYPY_DEBUG_TRACEBACK_DEPTH RPY_LL_ASSERT)
  = Some e.
Proof.
  by apply (store_all_slot _ (depth_is_power_of_two RPY_LL_ASSERT) es s s').
Qed.

Lemma row_kept_for_a_lap_witness :
  let first := {| location := 4096; exctype := 0 |} in
  let es := [ first; {| location := 0; exctype := 8192 |} ] in
  exists s',
    store_wf 128 (static_store 128) /\
    store_all 128 es (static_store 128) = Some s' /\
    es !! 0%nat = Some first /\
    Z.of_nat (length es) - Z.of_nat 0 <= 128 /\
    pypy_debug_tracebacks s' !! 0%nat = Some first.
Proof.
  intros first es.
  assert (Hwf : store_wf (PYPY_DEBUG_TRACEBACK_DEPTH false) (static_store 128)).
  { split; [reflexivity | simpl; lia]. }
  destruct (store_all_defined 128 eq_refl es (static_store 128) Hwf)
    as (s' & Hrun & _).
  assert (Hk : es !! 0%nat = Some first) by reflexivity.
  assert (Hrecent : Z.of_nat (length es) - Z.of_nat 0
                    <= PYPY_DEBUG_TRACEBACK_DEPTH false)
    by (vm_compute; discriminate).
  exists s'.
  split; [exact Hwf|]. split; [exact Hrun|]. split; [exact Hk|].
  split; [exact Hrecent|].
  exact (row_kept_for_a_lap false es _ s' 0 first Hwf Hrun Hk Hrecent).
Defined.

(** X2.  A row is overwritten by the row stored [depth] appends later: when
    [depth] rows or more were stored after the [k]-th row of a run, its slot
    holds a later row of the run, one whose index differs from [k] by a
    multiple of [depth] and that is itself among the last [depth]. *)
Theorem row_overwritten_after_a_lap (RPY_LL_ASSERT : bool)
  (es : list pypydtentry_s) (s s' : dtstate) (k : nat)
  (Hwf : store_wf (PYPY_DEBUG_TRACEBACK_DEPTH RPY_LL_ASSERT) s)
  (Hrun : store_all (PYPY_DEBUG_TRACEBACK_DEPTH RPY_LL_ASSERT) es s = Some s')
  (Hold : PYPY_DEBUG_TRACEBACK_DEPTH RPY_LL_ASSERT
          < Z.of_nat (length es) - Z.of_nat k) :
  let depth := PYPY_DEBUG_TRACEBACK_DEPTH RPY_LL_ASSERT in
  exists k' : nat,
    (k < k' < length es)%nat /\
    (Z.of_nat k' - Z.of_nat k) mod depth = 0 /\
    Z.of_nat (length es) - Z.of_nat k' <= depth /\
    pypy_debug_tracebacks s' !! Z.to_nat ((pypydtcount s + Z.of_nat k) mod depth)
    = es !! k'.
Proof.
  intros depth. fold depth in Hwf, Hrun, Hold.
  pose proof (depth_is_power_of_two RPY_LL_ASSERT) as Hpow. fold depth in Hpow.
  pose proof (power_of_two_pos _ Hpow) as Hpos.
  set (n := Z.of_nat (length es)) in *.
  set (q := (n - 1 - Z.of_nat k) / depth).
  pose proof (Z.div_mod (n - 1 - Z.of_nat k) depth ltac:(lia)) as Hdm.
  pose proof (Z.mod_pos_bound (n - 1 - Z.of_nat k) depth Hpos) as Hr.
  fold q in Hdm.
  assert (Hq : 1 <= q) by (apply Z.div_le_lower_bound; lia).
  exists (Z.to_nat (Z.of_nat k + depth * q)).
  assert (Hk' : Z.of_nat (Z.to_nat (Z.of_nat k + depth * q))
                = Z.of_nat k + depth * q) by nia.
  rewrite Hk'. split; [nia|]. split; [|split; [nia|]].
  - replace (Z.of_nat k + depth * q - Z.of_nat k) with (0 + q * depth) by lia.
    by rewrite Z.mod_add by lia.
  - destruct (lookup_lt_is_Some_2 es (Z.to_nat (Z.of_nat k + depth * q)))
      as [e He]; [unfold n in *; nia|].
    rewrite He.
    rewrite <- (store_all_slot depth Hpow es s s' _ e Hwf Hrun He)
      by (fold n; nia).
    do 2 f_equal. rewrite Hk'.
    replace (pypydtcount s + (Z.of_nat k + depth * q))
      with (pypydtcount s + Z.of_nat k + q * depth) by lia.
    by rewrite Z.mod_add by lia.
Qed.

Lemma row_overwritten_after_a_lap_witness :
  let first := {| location := 0; exctype := 8192 |} in
  let es := first :: replicate 129 {| location := 4096; exctype := 0 |} in
  exists s' (k' : nat),
    store_wf 128 (static_store 128) /\
    store_all 128 es (static_store 128) = Some s' /\
    128 < Z.of_nat (length es) - Z.of_nat 0 /\
    (0 < k' < length es)%nat /\
    pypy_debug_tracebacks s' !! 0%nat = es !! k'.
Proof.
  intros first es.
  assert (Hwf : store_wf (PYPY_DEBUG_TRACEBACK_DEPTH false) (static_store 128)).
  { split; [reflexivity | simpl; lia]. }
  destruct (store_all_defined 128 eq_refl es (static_store 128) Hwf)
    as (s' & Hrun & _).
  assert (Hold : PYPY_DEBUG_TRACEBACK_DEPTH false
                 < Z.of_nat (length es) - Z.of_nat 0) by (vm_compute; reflexivity).
  destruct (row_overwritten_after_a_lap false es _ s' 0 Hwf Hrun Hold)
    as (k' & Hlt & _ & _ & Hslot).
  exists s', k'.
  split; [exact Hwf|]. split; [exact Hrun|]. split; [exact Hold|].
  split; [exact Hlt | exact Hslot].
Defined.

(** X3.  A run of [PYPYDTSTORE] changes only the slots its rows land on:
    every slot that is not [(cursor + k) mod depth] for a [k] below the
    length of the run keeps the row it had. *)
Theorem slots_off_the_run_unchanged (RPY_LL_ASSERT : bool)
  (es : list pypydtentry_s) (s s' : dtstate) (j : nat)
  (Hwf : store_wf (PYPY_DEBUG_TRACEBACK_DEPTH RPY_LL_ASSERT) s)
  (Hrun : store_all (PYPY_DEBUG_TRACEBACK_DEPTH RPY_LL_ASSERT) es s = Some s')
  (Hoff : forall k : nat, (k < length es)%nat ->
            (pypydtcount s + Z.of_nat k)
              mod PYPY_DEBUG_TRACEBACK_DEPTH RPY_LL_ASSERT <> Z.of_nat j) :
  pypy_debug_tracebacks s' !! j = pypy_debug_tracebacks s !! j.
Proof.
  by apply (store_all_off_run _ (depth_is_power_of_two RPY_LL_ASSERT) es s s').
Qed.

Lemma slots_off_the_run_unchanged_witness :
  let es := [ {| location := 4096; exctype := 0 |};
              {| location := 0; exctype := 8192 |} ] in
  exists s',
    store_wf 128 (static_store 128) /\
    store_all 128 es (static_store 128) = Some s' /\
    (forall k : nat, (k < length es)%nat ->
       (pypydtcount (static_store 128) + Z.of_nat k) mod 128 <> Z.of_nat 5) /\
    pypy_debug_tracebacks s' !! 5%nat
    = pypy_debug_tracebacks (static_store 128) !! 5%nat.
Proof.
  intros es.
  assert (Hwf : store_wf (PYPY_DEBUG_TRACEBACK_DEPTH false) (static_store 128)).
  { split; [reflexivity | simpl; lia]. }
  destruct (store_all_defined 128 eq_refl es (static_store 128) Hwf)
    as (s' & Hrun & _).
  assert (Hoff : forall k : nat, (k < length es)%nat ->
            (pypydtcount (static_store 128) + Z.of_nat k)
              mod PYPY_DEBUG_TRACEBACK_DEPTH false <> Z.of_nat 5).
  { intros k Hk. simpl in Hk.
    assert (Hcase : k = 0%nat \/ k = 1%nat) by lia.
    destruct Hcase as [-> | ->]; vm_compute; discriminate. }
  exists s'. split; [exact Hwf|]. split; [exact Hrun|]. split; [exact Hoff|].
  exact (slots_off_the_run_unchanged false es _ s' 5 Hwf Hrun Hoff).
Defined.

(** X4.  Before the first wrap the buffer fills from slot 0 upward: after a
    run of [N] rows on the zeroed store, [N] at most the depth, the array is
    the run followed by [depth - N] zeroed rows, and the cursor is
    [N mod depth]. *)
Theorem first_fill_is_the_run (RPY_LL_ASSERT : bool)
  (es : list pypydtentry_s)
  (Hlen : (length es <= Z.to_nat (PYPY_DEBUG_TRACEBACK_DEPTH RPY_LL_ASSERT))%nat) :
  let depth := PYPY_DEBUG_TRACEBACK_DEPTH RPY_LL_ASSERT in
  store_all depth es (static_store depth) =
    Some {| pypy_debug_tracebacks :=
              es ++ replicate (Z.to_nat depth - length es) zero_entry;
            pypydtcount := Z.of_nat (length es) mod depth |}.
Proof.
  intros depth. fold depth in Hlen.
  pose proof (depth_is_power_of_two RPY_LL_ASSERT) as Hpow. fold depth in Hpow.
  pose proof (power_of_two_pos _ Hpow) as Hpos.
  pose proof (static_store_wf depth Hpow) as Hwf.
  destruct (store_all_defined depth Hpow es _ Hwf) as (s' & Hrun & [Hl' _] & Hc').
  assert (Ht : pypy_debug_tracebacks s'
               = es ++ replicate (Z.to_nat depth - length es) zero_entry).
  { apply list_eq. intros i.
    destruct (decide (i < length es)%nat) as [Hi|Hi].
    - rewrite lookup_app_l by done.
      destruct (lookup_lt_is_Some_2 es i Hi) as [e He]. rewrite He.
      pose proof (store_all_slot depth Hpow es _ _ i e Hwf Hrun He ltac:(lia))
        as Hslot.
      change (pypydtcount (static_store depth)) with 0 in Hslot.
      rewrite Z.add_0_l, Z.mod_small, Nat2Z.id in Hslot by lia. done.
    - rewrite lookup_app_r by lia.
      rewrite (store_all_off_run depth Hpow es _ _ i Hwf Hrun).
      + simpl. destruct (decide (i < Z.to_nat depth)%nat) as [Hd|Hd].
        * by rewrite !lookup_replicate_2 by lia.
        * by rewrite !lookup_ge_None_2 by (rewrite length_replicate; lia).
      + intros k Hk. simpl. rewrite Z.mod_small by lia. lia. }
  rewrite Hrun. destruct s' as [t' c']. simpl in *. by subst.
Qed.

Lemma first_fill_is_the_run_witness :
  let es := [ {| location := 4096; exctype := 0 |};
              {| location := 0; exctype := 8192 |} ] in
  (length es <= Z.to_nat 128)%nat /\
  store_all 128 es (static_store 128) =
    Some {| pypy_debug_tracebacks := es ++ replicate 126 zero_entry;
            pypydtcount := 2 |}.
Proof.
  intros es.
  assert (Hlen : (length es <= Z.to_nat (PYPY_DEBUG_TRACEBACK_DEPTH false))%nat)
    by (vm_compute; lia).
  split; [exact Hlen|].
  exact (first_fill_is_the_run false es Hlen).
Defined.

(** X5.  A full lap is a rotation: exactly [depth] appends on a well-formed
    store bring the cursor back where it was and leave in the array the rows
    of the run alone, those that wrapped first and the others behind the
    cursor. *)
Theorem full_lap_is_a_rotation (RPY_LL_ASSERT : bool)
  (es : list pypydtentry_s) (s : dtstate)
  (Hwf : store_wf (PYPY_DEBUG_TRACEBACK_DEPTH RPY_LL_ASSERT) s)
  (Hlen : length es = Z.to_nat (PYPY_DEBUG_TRACEBACK_DEPTH RPY_LL_ASSERT)) :
  let depth := PYPY_DEBUG_TRACEBACK_DEPTH RPY_LL_ASSERT in
  let ahead := (Z.to_nat depth - Z.to_nat (pypydtcount s))%nat in
  store_all depth es s =
    Some {| pypy_debug_tracebacks := drop ahead es ++ take ahead es;
            pypydtcount := pypydtcount s |}.
Proof.
  intros depth ahead. fold depth in Hwf, Hlen.
  pose proof (depth_is_power_of_two RPY_LL_ASSERT) as Hpow. fold depth in Hpow.
  pose proof (power_of_two_pos _ Hpow) as Hpos.
  destruct (store_all_defined depth Hpow es _ Hwf) as (s' & Hrun & [Hl' _] & Hc').
  destruct Hwf as [Hl Hc]. pose proof (conj Hl Hc : store_wf depth s) as Hwf.
  assert (Hcur : pypydtcount s' = pypydtcount s).
  { rewrite Hc', Hlen, Z2Nat.id by lia.
    replace (pypydtcount s + depth) with (pypydtcount s + 1 * depth) by lia.
    rewrite Z.mod_add by lia. by apply Z.mod_small. }
  assert (Ht : pypy_debug_tracebacks s' = drop ahead es ++ take ahead es).
  { apply list_eq. intros i. unfold ahead.
    destruct (decide (i < Z.to_nat (pypydtcount s))%nat) as [Hi|Hi].
    - rewrite lookup_app_l by (rewrite length_drop; lia).
      rewrite lookup_drop.
      destruct (lookup_lt_is_Some_2 es
                  (Z.to_nat depth - Z.to_nat (pypydtcount s) + i)) as [e He];
        [lia|].
      rewrite He.
      rewrite <- (store_all_slot depth Hpow es s s' _ e Hwf Hrun He) by lia.
      do 2 f_equal.
      replace (pypydtcount s
               + Z.of_nat (Z.to_nat depth - Z.to_nat (pypydtcount s) + i))
        with (Z.of_nat i + 1 * depth) by lia.
      rewrite Z.mod_add, Z.mod_small by lia. lia.
    - rewrite lookup_app_r by (rewrite length_drop; lia).
      rewrite length_drop.
      destruct (decide (i < Z.to_nat depth)%nat) as [Hd|Hd].
      + rewrite lookup_take_lt by lia.
        destruct (lookup_lt_is_Some_2 es
                    (i - (length es - (Z.to_nat depth - Z.to_nat (pypydtcount s)))))
          as [e He]; [lia|].
        rewrite He.
        rewrite <- (store_all_slot depth Hpow es s s' _ e Hwf Hrun He) by lia.
        do 2 f_equal. rewrite Z.mod_small by lia. lia.
      + rewrite lookup_ge_None_2 by lia.
        symmetry. apply lookup_ge_None_2. rewrite length_take. lia. }
  rewrite Hrun. destruct s' as [t' c']. simpl in Ht, Hcur. by rewrite Ht, Hcur.
Qed.

Lemma full_lap_is_a_rotation_witness :
  let s := {| pypy_debug_tracebacks := replicate 128 zero_entry;
              pypydtcount := 3 |} in
  let es := replicate 128 {| location := 4096; exctype := 0 |} in
  store_wf 128 s /\ length es = Z.to_nat 128 /\
  store_all 128 es s =
    Some {| pypy_debug_tracebacks := drop 125 es ++ take 125 es;
            pypydtcount := 3 |}.
Proof.
  intros s es.
  assert (Hwf : store_wf (PYPY_DEBUG_TRACEBACK_DEPTH false) s).
  { split; [reflexivity | simpl; lia]. }
  assert (Hlen : length es = Z.to_nat (PYPY_DEBUG_TRACEBACK_DEPTH false))
    by reflexivity.
  split; [exact Hwf|]. split; [exact Hlen|].
  exact (full_lap_is_a_rotation false es s Hwf Hlen).
Defined.

(** X6.  A lap erases what was there: after [depth] appends or more, the
    store is the same whatever rows the array held before, given the cursor
    it started from. *)
Theorem lap_erases_old_rows (RPY_LL_ASSERT : bool)
  (es : list pypydtentry_s) (s1 s2 : dtstate)
  (Hwf1 : store_wf (PYPY_DEBUG_TRACEBACK_DEPTH RPY_LL_ASSERT) s1)
  (Hwf2 : store_wf (PYPY_DEBUG_TRACEBACK_DEPTH RPY_LL_ASSERT) s2)
  (Hcur : pypydtcount s1 = pypydtcount s2)
  (Hlen : (Z.to_nat (PYPY_DEBUG_TRACEBACK_DEPTH RPY_LL_ASSERT) <= length es)%nat) :
  store_all (PYPY_DEBUG_TRACEBACK_DEPTH RPY_LL_ASSERT) es s1
  = store_all (PYPY_DEBUG_TRACEBACK_DEPTH RPY_LL_ASSERT) es s2.
Proof.
  set (depth := PYPY_DEBUG_TRACEBACK_DEPTH RPY_LL_ASSERT) in *.
  pose proof (depth_is_power_of_two RPY_LL_ASSERT) as Hpow. fold depth in Hpow.
  pose proof (power_of_two_pos _ Hpow) as Hpos.
  destruct (store_all_defined depth Hpow es _ Hwf1) as (r1 & Hrun1 & [Hl1 _] & Hc1).
  destruct (store_all_defined depth Hpow es _ Hwf2) as (r2 & Hrun2 & [Hl2 _] & Hc2).
  rewrite Hrun1, Hrun2. f_equal.
  assert (Ht : pypy_debug_tracebacks r1 = pypy_debug_tracebacks r2).
  { apply list_eq. intros i.
    destruct (decide (i < Z.to_nat depth)%nat) as [Hi|Hi];
      [|by rewrite !lookup_ge_None_2 by lia].
    set (n := Z.of_nat (length es)).
    set (m := (Z.of_nat i - pypydtcount s1 - (n - depth)) mod depth).
    pose proof (Z.mod_pos_bound (Z.of_nat i - pypydtcount s1 - (n - depth))
                  depth Hpos) as Hm.
    fold m in Hm.
    destruct (lookup_lt_is_Some_2 es (Z.to_nat (n - depth + m))) as [e He];
      [unfold n in *; lia|].
    assert (Hslot : forall c, 0 <= c < depth -> c = pypydtcount s1 ->
              Z.to_nat ((c + Z.of_nat (Z.to_nat (n - depth + m))) mod depth) = i).
    { intros c Hc ->. rewrite Z2Nat.id by (unfold n in *; lia).
      replace (pypydtcount s1 + (n - depth + m))
        with (m + (pypydtcount s1 + (n - depth))) by lia.
      unfold m. rewrite Zplus_mod_idemp_l.
      replace (Z.of_nat i - pypydtcount s1 - (n - depth)
               + (pypydtcount s1 + (n - depth))) with (Z.of_nat i) by lia.
      rewrite Z.mod_small by lia. lia. }
    pose proof (store_all_slot depth Hpow es s1 r1 _ e Hwf1 Hrun1 He
                  ltac:(unfold n in *; lia)) as H1.
    pose proof (store_all_slot depth Hpow es s2 r2 _ e Hwf2 Hrun2 He
                  ltac:(unfold n in *; lia)) as H2.
    rewrite (Hslot _ (proj2 Hwf1) eq_refl) in H1.
    rewrite <- Hcur, (Hslot _ (proj2 Hwf1) eq_refl) in H2.
    by rewrite H1, H2. }
  destruct r1 as [t1 c1], r2 as [t2 c2]. simpl in *. subst. by rewrite Hcur.
Qed.

Lemma lap_erases_old_rows_witness :
  let s1 := static_store 128 in
  let s2 := {| pypy_debug_tracebacks :=
                 replicate 128 {| location := 0; exctype := 8192 |};
               pypydtcount := 0 |} in
  let es := replicate 128 {| location := 4096; exctype := 0 |} in
  store_wf 128 s1 /\ store_wf 128 s2 /\ pypydtcount s1 = pypydtcount s2 /\
  (Z.to_nat 128 <= length es)%nat /\
  store_all 128 es s1 = store_all 128 es s2.
Proof.
  intros s1 s2 es.
  assert (Hwf1 : store_wf (PYPY_DEBUG_TRACEBACK_DEPTH false) s1).
  { split; [reflexivity | simpl; lia]. }
  assert (Hwf2 : store_wf (PYPY_DEBUG_TRACEBACK_DEPTH false) s2).
  { split; [reflexivity | simpl; lia]. }
  assert (Hcur : pypydtcount s1 = pypydtcount s2) by reflexivity.
  assert (Hlen : (Z.to_nat (PYPY_DEBUG_TRACEBACK_DEPTH false) <= length es)%nat)
    by (vm_compute; lia).
  split; [exact Hwf1|]. split; [exact Hwf2|]. split; [exact Hcur|].
  split; [exact Hlen|].
  exact (lap_erases_old_rows false es s1 s2 Hwf1 Hwf2 Hcur Hlen).
Defined.

(** ** The cursor *)

(** X7.  The cursor has period [depth] exactly: after a run of appends it is
    back where it started if and only if the length of the run is a multiple
    of the depth. *)
Theorem cursor_returns_every_depth_appends (RPY_LL_ASSERT : bool)
  (es : list pypydtentry_s) (s s' : dtstate)
  (Hwf : store_wf (PYPY_DEBUG_TRACEBACK_DEPTH RPY_LL_ASSERT) s)
  (Hrun : store_all (PYPY_DEBUG_TRACEBACK_DEPTH RPY_LL_ASSERT) es s = Some s') :
  pypydtcount s' = pypydtcount s <->
  Z.of_nat (length es) mod PYPY_DEBUG_TRACEBACK_DEPTH RPY_LL_ASSERT = 0.
Proof.
  set (depth := PYPY_DEBUG_TRACEBACK_DEPTH RPY_LL_ASSERT) in *.
  pose proof (depth_is_power_of_two RPY_LL_ASSERT) as Hpow. fold depth in Hpow.
  pose proof (power_of_two_pos _ Hpow) as Hpos.
  destruct (store_all_length depth Hpow es s s' Hwf Hrun) as [_ ->].
  destruct Hwf as [_ Hc].
  set (n := Z.of_nat (length es)).
  pose proof (Z.mod_pos_bound n depth Hpos) as Hr.
  rewrite <- Zplus_mod_idemp_r.
  destruct (Z_lt_le_dec (pypydtcount s + n mod depth) depth) as [Hlt|Hge].
  - rewrite Z.mod_small by lia. lia.
  - replace (pypydtcount s + n mod depth)
      with (pypydtcount s + n mod depth - depth + 1 * depth) by lia.
    rewrite Z.mod_add, Z.mod_small by lia. lia.
Qed.

Lemma cursor_returns_every_depth_appends_witness :
  let es := replicate 256 {| location := 4096; exctype := 0 |} in
  exists s',
    store_wf 128 (static_store 128) /\
    store_all 128 es (static_store 128) = Some s' /\
    pypydtcount s' = pypydtcount (static_store 128).
Proof.
  intros es.
  assert (Hwf : store_wf (PYPY_DEBUG_TRACEBACK_DEPTH false) (static_store 128)).
  { split; [reflexivity | simpl; lia]. }
  destruct (store_all_defined 128 eq_refl es (static_store 128) Hwf)
    as (s' & Hrun & _).
  exists s'. split; [exact Hwf|]. split; [exact Hrun|].
  apply (cursor_returns_every_depth_appends false es _ s' Hwf Hrun).
  vm_compute. reflexivity.
Defined.

(** X8.  Every slot is reached: from any well-formed store and for any slot
    [j] of the array there is a number of appends, below the depth, after
    which the cursor is on [j], whatever the rows appended. *)
Theorem every_slot_is_reached (RPY_LL_ASSERT : bool) (s : dtstate) (j : Z)
  (Hwf : store_wf (PYPY_DEBUG_TRACEBACK_DEPTH RPY_LL_ASSERT) s)
  (Hj : 0 <= j < PYPY_DEBUG_TRACEBACK_DEPTH RPY_LL_ASSERT) :
  let depth := PYPY_DEBUG_TRACEBACK_DEPTH RPY_LL_ASSERT in
  exists n : nat,
    Z.of_nat n < depth /\
    forall es, length es = n ->
      exists s', store_all depth es s = Some s' /\ pypydtcount s' = j.
Proof.
  intros depth. fold depth in Hwf, Hj.
  pose proof (depth_is_power_of_two RPY_LL_ASSERT) as Hpow. fold depth in Hpow.
  pose proof (power_of_two_pos _ Hpow) as Hpos.
  pose proof (Z.mod_pos_bound (j - pypydtcount s) depth Hpos) as Hr.
  exists (Z.to_nat ((j - pypydtcount s) mod depth)).
  split; [lia|]. intros es Hlen.
  destruct (store_all_defined depth Hpow es s Hwf) as (s' & Hrun & _ & Hc).
  exists s'. split; [done|].
  rewrite Hc, Hlen, Z2Nat.id by lia.
  rewrite Zplus_mod_idemp_r.
  replace (pypydtcount s + (j - pypydtcount s)) with j by lia.
  by apply Z.mod_small.
Qed.

Lemma every_slot_is_reached_witness :
  store_wf 128 (static_store 128) /\ 0 <= 5 < 128 /\
  exists n : nat,
    Z.of_nat n < 128 /\
    forall es, length es = n ->
      exists s', store_all 128 es (static_store 128) = Some s' /\
                 pypydtcount s' = 5.
Proof.
  assert (Hwf : store_wf (PYPY_DEBUG_TRACEBACK_DEPTH false) (static_store 128)).
  { split; [reflexivity | simpl; lia]. }
  assert (Hj : 0 <= 5 < PYPY_DEBUG_TRACEBACK_DEPTH false) by (simpl; lia).
  split; [exact Hwf|]. split; [exact Hj|].
  exact (every_slot_is_reached false (static_store 128) 5 Hwf Hj).
Defined.

(** ** The mask when the depth is not a power of two *)




Lemma subset_bits_le x b : 0 <= b -> Z.ldiff x b = 0 -> x <= b.
Proof.
  intros Hb Hd.
  pose proof (Z.sub_nocarry_ldiff b x Hd) as Hsub.
  assert (0 <= Z.ldiff b x) by (apply Z.ldiff_nonneg; by left).
  lia.
Qed.

Lemma not_power_of_two_between depth :
  1 <= depth -> is_power_of_two depth = false ->
  2 ^ Z.log2 depth < depth < 2 ^ (Z.log2 depth + 1).
Proof.
  intros Hd Hnp.
  destruct (Z.log2_spec depth ltac:(lia)) as [Hlo Hhi].
  rewrite <- Z.add_1_r in Hhi.
  unfold is_power_of_two in Hnp.
  apply andb_false_iff in Hnp as [Hnp|Hnp].
  - apply Z.ltb_ge in Hnp. lia.
  - apply Z.eqb_neq in Hnp. lia.
Qed.

(** X10.  The power of two is needed: for every depth of one slot at least
    that is not a power of two, there is a slot of the array on which the
    cursor never is after a [PYPYDTSTORE], so that slot is never written
    from the second append on. *)
Theorem other_depths_skip_a_slot (depth : Z)
  (Hdepth : 1 <= depth) (Hnp : is_power_of_two depth = false) :
  exists j, 0 <= j < depth /\
    forall loc etype s s',
      PYPYDTSTORE depth loc etype s = Some s' -> pypydtcount s' <> j.
Proof.
  destruct (not_power_of_two_between depth Hdepth Hnp) as [Hlo Hhi].
  pose proof (Z.log2_nonneg depth) as Hk.
  set (k := Z.log2 depth) in *.
  assert (Hpk : 0 < 2 ^ k) by (apply Z.pow_pos_nonneg; lia).
  set (j := Z.ldiff (Z.ones k) (depth - 1)).
  assert (Hones : Z.ones k = 2 ^ k - 1) by (rewrite Z.ones_equiv; lia).
  assert (Hj0 : 0 <= j) by (apply Z.ldiff_nonneg; left; lia).
  assert (Hjle : j <= Z.ones k).
  { apply subset_bits_le; [lia|].
    apply Z.bits_inj'. intros n Hn. unfold j.
    rewrite !Z.ldiff_spec, Z.bits_0.
    by destruct (Z.testbit (Z.ones k) n), (Z.testbit (depth - 1) n). }
  assert (Hdisj : Z.land j (depth - 1) = 0).
  { apply Z.bits_inj'. intros n Hn. unfold j.
    rewrite Z.land_spec, Z.ldiff_spec, Z.bits_0.
    by destruct (Z.testbit (Z.ones k) n), (Z.testbit (depth - 1) n). }
  assert (Hjne : j <> 0).
  { intros Hz.
    assert (Hlog : Z.log2 (depth - 1) = k).
    { apply Z.log2_unique; [lia|]. rewrite Z.add_1_r in Hhi. split; lia. }
    assert (Hall : depth - 1 = Z.ones (k + 1)).
    { apply Z.bits_inj'. intros n Hn.
      destruct (Z_lt_le_dec n k) as [Hlt|Hge].
      - rewrite Z.ones_spec_low by lia.
        apply (f_equal (fun z => Z.testbit z n)) in Hz. unfold j in Hz.
        rewrite Z.ldiff_spec, Z.bits_0, Z.ones_spec_low in Hz by lia.
        by destruct (Z.testbit (depth - 1) n).
      - destruct (Z.eq_dec n k) as [->|Hne].
        + rewrite Z.ones_spec_low by lia.
          rewrite <- Hlog. apply Z.bit_log2. lia.
        + rewrite Z.ones_spec_high by lia.
          apply Z.bits_above_log2; lia. }
    rewrite Z.ones_equiv in Hall. lia. }
  exists j. split; [lia|].
  intros loc etype s s' Hst Hc. unfold PYPYDTSTORE in Hst.
  case_bool_decide; [|done]. injection Hst as <-. simpl in Hc.
  apply Hjne. rewrite <- Hdisj, <- Hc.
  rewrite <- Z.land_assoc, Z.land_diag. done.
Qed.

Lemma other_depths_skip_a_slot_witness :
  1 <= 100 /\ is_power_of_two 100 = false /\
  exists j, 0 <= j < 100 /\
    forall loc etype s s',
      PYPYDTSTORE 100 loc etype s = Some s' -> pypydtcount s' <> j.
Proof.
  assert (Hdepth : 1 <= 100) by lia.
  assert (Hnp : is_power_of_two 100 = false) by reflexivity.
  split; [exact Hdepth|]. split; [exact Hnp|].
  exact (other_depths_skip_a_slot 100 Hdepth Hnp).
Defined.

(** ** The sentinel and the rows *)

(** X11.  [PYPYDTPOS_RERAISE] is the last address: no pointer value is above
    it, and it is one short of a multiple of every power of two up to the
    size of the address space, so it is the address of no object aligned on
    two bytes or more. *)
Theorem reraise_is_last_and_unaligned (ptr_bits : Z) (Hbits : 0 < ptr_bits) :
  (forall p, 0 <= p < 2 ^ ptr_bits -> p <= PYPYDTPOS_RERAISE ptr_bits) /\
  (forall n, int_to_ptr ptr_bits n <= PYPYDTPOS_RERAISE ptr_bits) /\
  (forall k, 1 <= k <= ptr_bits ->
     PYPYDTPOS_RERAISE ptr_bits mod 2 ^ k = 2 ^ k - 1 /\
     PYPYDTPOS_RERAISE ptr_bits mod 2 ^ k <> 0).
Proof.
  rewrite reraise_is_all_ones by done.
  pose proof (address_space_size ptr_bits Hbits) as H2.
  split; [intros p Hp; lia|]. split.
  - intros n. unfold int_to_ptr.
    pose proof (Z.mod_pos_bound n (2 ^ ptr_bits) ltac:(lia)). lia.
  - intros k Hk.
    assert (Hpk : 2 <= 2 ^ k).
    { change 2 with (2 ^ 1) at 1. apply Z.pow_le_mono_r; lia. }
    assert (Hsplit : 2 ^ ptr_bits = 2 ^ k * 2 ^ (ptr_bits - k)).
    { rewrite <- Z.pow_add_r by lia. f_equal. lia. }
    assert (Hmod : (2 ^ ptr_bits - 1) mod 2 ^ k = 2 ^ k - 1).
    { symmetry. apply (Z.mod_unique _ _ (2 ^ (ptr_bits - k) - 1)); [lia|].
      rewrite Hsplit. lia. }
    rewrite Hmod. lia.
Qed.

Lemma reraise_is_last_and_unaligned_witness :
  0 < 64 /\ PYPYDTPOS_RERAISE 64 mod 2 ^ 3 = 2 ^ 3 - 1.
Proof.
  assert (Hbits : 0 < 64) by lia.
  split; [exact Hbits|].
  destruct (reraise_is_last_and_unaligned 64 Hbits) as (_ & _ & Hal).
  exact (proj1 (Hal 3 ltac:(lia))).
Defined.

(** X12.  Read by the table of the header, a row is given back unchanged by
    the three kinds of entry exactly when its location is null or the
    sentinel, or its exception type is null: the rows with a real location
    and an exception type are the only ones whose reading loses a field. *)
Theorem reading_is_exact_off_the_fourth_rows (ptr_bits : Z)
  (s : pypydtentry_s) (Hbits : 0 < ptr_bits) :
  encode ptr_bits (interpret ptr_bits s) = s <->
  location s = PYPYDTPOS_RERAISE ptr_bits \/ location s = NULL \/
  exctype s = NULL.
Proof.
  destruct s as [loc etype]. unfold interpret; cbn [location exctype].
  case_bool_decide as Hr; [|case_bool_decide as Hn]; simpl.
  - subst loc. split; [by left | done].
  - subst loc. split; [by right; left | done].
  - split.
    + intros [= He]. by right; right.
    + intros [?|[?|?]]; [done | done | by subst].
Qed.

Lemma reading_is_exact_off_the_fourth_rows_witness :
  0 < 64 /\
  encode 64 (interpret 64 {| location := 4096; exctype := 0 |})
  = {| location := 4096; exctype := 0 |}.
Proof.
  assert (Hbits : 0 < 64) by lia.
  split; [exact Hbits|].
  apply (reading_is_exact_off_the_fourth_rows 64 _ Hbits).
  right; right. reflexivity.
Defined.

(** X13.  The increment of the cursor never overflows: after any run of
    appends on a well-formed store of either depth, the cursor is an index
    of the array and [pypydtcount + 1], computed in [int] before the mask by
    the next append, is at most the depth, far below [2 ^ 31 - 1]. *)
Theorem cursor_increment_fits_int (RPY_LL_ASSERT : bool)
  (es : list pypydtentry_s) (s s' : dtstate)
  (Hwf : store_wf (PYPY_DEBUG_TRACEBACK_DEPTH RPY_LL_ASSERT) s)
  (Hrun : store_all (PYPY_DEBUG_TRACEBACK_DEPTH RPY_LL_ASSERT) es s
          = Some s') :
  0 <= pypydtcount s' < Z.of_nat (length (pypy_debug_tracebacks s')) /\
  pypydtcount s' + 1 <= PYPY_DEBUG_TRACEBACK_DEPTH RPY_LL_ASSERT /\
  pypydtcount s' + 1 <= 2 ^ 31 - 1.
Proof.
  set (depth := PYPY_DEBUG_TRACEBACK_DEPTH RPY_LL_ASSERT) in *.
  pose proof (depth_is_power_of_two RPY_LL_ASSERT) as Hpow. fold depth in Hpow.
  destruct (store_all_defined depth Hpow es s Hwf)
    as (s1 & E1 & [Hl Hc] & _).
  rewrite Hrun in E1. injection E1 as <-.
  assert (Hsmall : depth <= 8192) by (unfold depth; destruct RPY_LL_ASSERT; simpl; lia).
  split; [lia|]. split; [lia|].
  change (2 ^ 31 - 1) with 2147483647. lia.
Qed.

Lemma cursor_increment_fits_int_witness :
  let es := replicate 300 {| location := 4096; exctype := 0 |} in
  exists s',
    store_wf 128 (static_store 128) /\
    store_all 128 es (static_store 128) = Some s' /\
    pypydtcount s' + 1 <= 2 ^ 31 - 1.
Proof.
  intros es.
  assert (Hwf : store_wf (PYPY_DEBUG_TRACEBACK_DEPTH false) (static_store 128)).
  { split; [reflexivity | simpl; lia]. }
  destruct (store_all_defined 128 eq_refl es (static_store 128) Hwf)
    as (s' & Hrun & _).
  exists s'. split; [exact Hwf|]. split; [exact Hrun|].
  exact (proj2 (proj2 (cursor_increment_fits_int false es _ s' Hwf Hrun))).
Defined.
